(** * Product-Info-Scraper: the search clients, the CSV row formatter and
      the bulk runner of [main.py], embedded in Rocq.

    The two HTTP clients ([google_custom_search], [search_serper_shopping]),
    the formatter ([format_results_for_csv]), the body of the
    "Bulk Upload CSV" branch and the page script around them are
    translated from the Python source.  The remote providers are an oracle
    that answers each request from the history of requests made so far;
    Python exceptions are an explicit error result; Python dicts built by
    the program are finite maps; a run of the page reads the state of its
    input widgets and records the elements it shows. *)

From Stdlib Require Import ZArith Ascii.
From stdpp Require Import gmap strings list fin_maps pretty.

Local Set Warnings "-register-all".

(** ** Python values *)

(** A float is only ever tested for truth here: not-a-number, an infinity,
    or the finite number [m * 2 ^ e]. *)
Inductive pyfloat :=
| FNan
| FInf (negative : bool)
| FFin (m e : Z).

(** What [json.loads] produces, which is also all the program handles:
    [None], booleans, numbers, strings, lists, and dicts with string keys.
    A dict is the list of its items in insertion order; lookup takes the
    first binding of a key. *)
Inductive value :=
| VNone
| VBool (b : bool)
| VInt (n : Z)
| VFloat (f : pyfloat)
| VStr (s : string)
| VList (l : list value)
| VDict (d : list (string * value)).

(** Truth value of an object, as [if x:] and [not x] test it. *)
Definition truthy (v : value) : bool :=
  match v with
  | VNone => false
  | VBool b => b
  | VInt n => negb (n =? 0)%Z
  | VFloat (FFin m _) => negb (m =? 0)%Z
  | VFloat _ => true
  | VStr s => negb (bool_decide (s = ""))
  | VList l => negb (bool_decide (length l = 0))
  | VDict d => negb (bool_decide (length d = 0))
  end.

(** Exceptions the modelled code can raise. *)
Inductive exn :=
| ConnectionError
| JSONDecodeError
| AttributeError
| TypeError
| KeyError.

Inductive result (A : Type) :=
| Ok (a : A)
| Raise (e : exn).
Arguments Ok {A} a.
Arguments Raise {A} e.

Definition rbind {A B} (r : result A) (k : A → result B) : result B :=
  match r with
  | Ok a => k a
  | Raise e => Raise e
  end.

Notation "x <~ r ;; k" := (rbind r (λ x, k))
  (at level 100, r at next level, right associativity, only parsing).

(** [d.get(key, default)] on the bindings of a dict. *)
Fixpoint assoc (key : string) (d : list (string * value)) : option value :=
  match d with
  | [] => None
  | (k, v) :: d' => if decide (k = key) then Some v else assoc key d'
  end.

Definition dict_get (d : list (string * value)) (key : string)
    (dflt : value) : value :=
  default dflt (assoc key d).

(** [x.get(key, default)]: only a dict has the method. *)
Definition py_get (x : value) (key : string) (dflt : value) : result value :=
  match x with
  | VDict d => Ok (dict_get d key dflt)
  | _ => Raise AttributeError
  end.

(** First [n] characters of a string. *)
Fixpoint take_chars (n : nat) (s : string) : string :=
  match n, s with
  | S n', String c s' => String c (take_chars n' s')
  | _, _ => ""
  end.

(** [x[:n]]: lists and strings can be sliced, nothing else the JSON
    decoder returns can. *)
Definition py_slice_to (n : nat) (x : value) : result value :=
  match x with
  | VList l => Ok (VList (take n l))
  | VStr s => Ok (VStr (take_chars n s))
  | _ => Raise TypeError
  end.

Fixpoint chars (s : string) : list value :=
  match s with
  | "" => []
  | String c s' => VStr (String c "") :: chars s'
  end.

(** The items a [for] loop draws from [x]. *)
Definition py_iter (x : value) : result (list value) :=
  match x with
  | VList l => Ok l
  | VStr s => Ok (chars s)
  | VDict d => Ok ((λ kv, VStr kv.1) <$> d)
  | _ => Raise TypeError
  end.

(** ** Strings *)

Definition is_upper (c : ascii) : bool :=
  let n := Ascii.N_of_ascii c in (65 <=? n)%N && (n <=? 90)%N.

Definition lower_char (c : ascii) : ascii :=
  if is_upper c then Ascii.ascii_of_N (Ascii.N_of_ascii c + 32)%N else c.

(** [s.lower()], on ASCII letters. *)
Fixpoint lower (s : string) : string :=
  match s with
  | "" => ""
  | String c s' => String (lower_char c) (lower s')
  end.

(** A string holds the UTF-8 bytes of a Python [str]. *)
Definition utf8 (bytes : list N) : string :=
  foldr (λ b s, String (Ascii.ascii_of_N b) s) "" bytes.

(** The characters for which [c.isspace()] holds, which are the ones
    [s.strip()] removes: U+0009..U+000D, U+001C..U+0020, U+0085, U+00A0,
    U+1680, U+2000..U+200A, U+2028, U+2029, U+202F, U+205F and U+3000,
    each in UTF-8. *)
Definition whitespace : list string :=
  utf8 <$> [[9]; [10]; [11]; [12]; [13]; [28]; [29]; [30]; [31]; [32];
            [194; 133]; [194; 160]; [225; 154; 128];
            [226; 128; 128]; [226; 128; 129]; [226; 128; 130];
            [226; 128; 131]; [226; 128; 132]; [226; 128; 133];
            [226; 128; 134]; [226; 128; 135]; [226; 128; 136];
            [226; 128; 137]; [226; 128; 138];
            [226; 128; 168]; [226; 128; 169]; [226; 128; 175];
            [226; 129; 159]; [227; 128; 128]]%N.

(** The rest of [s] after the prefix [p], when [s] starts with [p]. *)
Fixpoint strip_prefix (p s : string) : option string :=
  match p, s with
  | "", _ => Some s
  | String a p', String b s' =>
      if decide (a = b) then strip_prefix p' s' else None
  | String _ _, "" => None
  end.

(** The rest of [s] after its first character, when that character is one
    of [table]. *)
Definition drop_one (table : list string) (s : string) : option string :=
  head (omap (λ c, strip_prefix c s) table).

(** Drop characters of [table] from the front, as long as there is one
    (at most [fuel] of them). *)
Fixpoint lstrip_with (table : list string) (fuel : nat) (s : string)
    : string :=
  match fuel with
  | 0 => s
  | S fuel' =>
      match drop_one table s with
      | Some rest => lstrip_with table fuel' rest
      | None => s
      end
  end.

Definition lstrip (s : string) : string :=
  lstrip_with whitespace (String.length s) s.

(** From the back: the same on the reversed bytes, with each character of
    the table reversed. *)
Definition rstrip (s : string) : string :=
  String.rev (lstrip_with (String.rev <$> whitespace) (String.length s)
                (String.rev s)).

(** [s.strip()] *)
Definition strip (s : string) : string := rstrip (lstrip s).

(** [needle in hay] *)
Definition contains (hay needle : string) : Prop :=
  ∃ before after, hay = before +:+ needle +:+ after.

(** ** The network *)

Inductive request :=
| GET (url : string) (params : list (string * string))
| POST (url : string) (headers : list (string * option string))
       (data : list (string * value)).

(** A [requests.Response]: the status, the body, and what [.json()]
    returns ([None] when the body is not JSON and the call raises). *)
Record Response := {
  status_code : Z;
  text : string;
  json : option value
}.

(** The requests sent so far, oldest first. *)
Definition world := list request.

(** Computations that send requests and may raise. *)
Definition M (A : Type) : Type := world → result A * world.

Definition ret {A} (a : A) : M A := λ w, (Ok a, w).

Definition lift {A} (r : result A) : M A := λ w, (r, w).

Definition bind {A B} (c : M A) (k : A → M B) : M B :=
  λ w, match c w with
       | (Ok a, w') => k a w'
       | (Raise e, w') => (Raise e, w')
       end.

Notation "x <- c ;; k" := (bind c (λ x, k))
  (at level 100, c at next level, right associativity, only parsing).

Definition response_json (r : Response) : result value :=
  match json r with
  | Some v => Ok v
  | None => Raise JSONDecodeError
  end.

(** The outcome dict [{"error": ..., "results": ...}] of the shopping
    client. *)
Record outcome := {
  error : value;
  results : value
}.

(** A row of the report: field name to value. *)
Abbreviation Row := (gmap string value).

(** ** The uploaded table *)

(** A cell of the frame [pd.read_csv] builds, as the loop over
    [iterrows()] reads it: text, the missing-value marker NaN (an empty
    field of the file), an integer, a boolean, or a float other than NaN,
    which is given by the text that [str] prints for it (its shortest
    repr, such as 123.0). *)
Inductive cell :=
| CStr (s : string)
| CNaN
| CInt (n : Z)
| CBool (b : bool)
| CFloat (text : string).

(** [str(x)] of a cell. *)
Definition str (x : cell) : string :=
  match x with
  | CStr s => s
  | CNaN => "nan"
  | CInt n => pretty n
  | CBool b => if b then "True" else "False"
  | CFloat text => text
  end.

(** A frame: its column labels and its rows in index order.  A row that
    holds nothing under a label of the frame reads as NaN there. *)
Record DataFrame := {
  columns : list string;
  rows : list (gmap string cell)
}.

(** [row[label]] on a row of a frame with labels [cols]. *)
Definition loc (cols : list string) (row : gmap string cell)
    (label : string) : result cell :=
  if bool_decide (label ∈ cols) then Ok (default CNaN (row !! label))
  else Raise KeyError.

(** [df[label] = x] for a scalar [x]. *)
Definition assign_const (label : string) (x : cell) (df : DataFrame)
    : DataFrame :=
  {| columns := if bool_decide (label ∈ columns df) then columns df
                else columns df ++ [label];
     rows := insert label x <$> rows df |}.

Definition fillna (x : cell) (c : cell) : cell :=
  match c with
  | CNaN => x
  | _ => c
  end.

(** [df[label] = df[label].fillna(x)] *)
Definition assign_fillna (label : string) (x : cell) (df : DataFrame)
    : DataFrame :=
  {| columns := columns df;
     rows := (λ row, <[label := fillna x (default CNaN (row !! label))]> row)
             <$> rows df |}.

(** The two branches that give every row a Country before the loop. *)
Definition default_country (input_df : DataFrame) : DataFrame :=
  if bool_decide ("Country" ∉ columns input_df) then
    assign_const "Country" (CStr "us") input_df
  else
    assign_fillna "Country" (CStr "us") input_df.

(** What the page shows at the end of the bulk branch: the error that
    stops the script, or the rows gathered in [all_rows]. *)
Inductive page :=
| Stopped (message : string)
| Report (all_rows : list Row).

Section Program.

(** The providers: the reply to a request, given the requests before it.
    [requests.get] and [requests.post] raise when no response arrives. *)
Variable server : world → request → result Response.

(** The keys read from the environment at start-up. *)
Variable SERPER_API_KEY : option string.

Definition send (req : request) : M Response :=
  λ w, (server w req, w ++ [req]).

Definition google_request (query api_key cx : string) : request :=
  let url := "https://www.googleapis.com/customsearch/v1" in
  let params := [("key", api_key); ("cx", cx); ("q", query)] in
  GET url params.

Definition google_custom_search (query api_key cx : string) : M value :=
  response <- send (google_request query api_key cx);;
  if negb (status_code response =? 200)%Z then
    ret (VDict [("error",
                 VStr ("Google Custom Search API error: "
                       +:+ pretty (status_code response)
                       +:+ " - " +:+ text response))])
  else
    data <- lift (response_json response);;
    lift (py_get data "items" (VList [])).

Definition serper_request (query country : string) : request :=
  POST "https://google.serper.dev/shopping"
       [("X-API-KEY", SERPER_API_KEY);
        ("Content-Type", Some "application/json")]
       [("q", VStr query); ("gl", VStr (lower country))].

Definition search_serper_shopping (query country : string) : M outcome :=
  response <- send (serper_request query country);;
  if negb (status_code response =? 200)%Z then
    ret {| error := VStr ("Serper API error: "
                          +:+ pretty (status_code response)
                          +:+ " - " +:+ text response);
           results := VList [] |}
  else
    data <- lift (response_json response);;
    shopping_results <- lift (py_get data "shopping" (VList []));;
    shopping_results <- lift (py_slice_to 41 shopping_results);;
    ret {| error := VNone; results := shopping_results |}.

(** ** The row formatter *)

(** The key [f"{name} {i}"]. *)
Definition indexed (name : string) (i : nat) : string :=
  name +:+ " " +:+ pretty i.

(** One round of the loop over [enumerate(results, start=1)]. *)
Definition format_result (i : nat) (r : value) (row : Row) : result Row :=
  title <~ py_get r "title" (VStr "");;
  let row := <[indexed "Title" i := title]> row in
  source <~ py_get r "source" (VStr "");;
  let row := <[indexed "Source" i := source]> row in
  link <~ py_get r "link" (VStr "");;
  let row := <[indexed "Link" i := link]> row in
  price <~ py_get r "price" (VStr "");;
  let row := <[indexed "Price" i := price]> row in
  image_url <~ py_get r "imageUrl" (VStr "");;
  let row := <[indexed "ImageURL" i := image_url]> row in
  rating <~ py_get r "rating" (VStr "");;
  let row := <[indexed "Rating" i := rating]> row in
  rating_count <~ py_get r "ratingCount" (VStr "");;
  let row := <[indexed "RatingCount" i := rating_count]> row in
  product_id <~ py_get r "productId" (VStr "");;
  let row := <[indexed "ProductId" i := product_id]> row in
  position <~ py_get r "position" (VStr "");;
  let row := <[indexed "Position" i := position]> row in
  Ok row.

Fixpoint format_loop (i : nat) (items : list value) (row : Row) : result Row :=
  match items with
  | [] => Ok row
  | r :: items' =>
      row' <~ format_result i r row;;
      format_loop (S i) items' row'
  end.

Definition format_results_for_csv (product_title : string) (results : value)
    (error : value) : result Row :=
  let row : Row :=
    <["Search Status" := VStr (if truthy error then "Error" else "Success")]>
      (<["Product Title" := VStr product_title]> ∅) in
  if truthy error then
    Ok (<["Error Message" := error]> row)
  else
    items <~ py_iter results;;
    format_loop 1 items row.

(** ** The bulk runner *)

(** The rounds of [for idx, row in input_df.iterrows()], one call each:
    [None] is the [continue] of a blank title. *)
Definition bulk_row (cols : list string) (row : gmap string cell)
    : M (option Row) :=
  title <- lift (loc cols row "Product Title");;
  let product_title := strip (str title) in
  code <- lift (loc cols row "Country");;
  let country := lower (strip (str code)) in
  if negb (truthy (VStr product_title)) then
    ret None
  else
    response <- search_serper_shopping product_title country;;
    formatted_row <- lift
      (if truthy (error response) then
         format_results_for_csv product_title (VList []) (error response)
       else
         format_results_for_csv product_title (results response) VNone);;
    ret (Some formatted_row).

Fixpoint bulk_loop (cols : list string) (todo : list (gmap string cell))
    (all_rows : list Row) : M (list Row) :=
  match todo with
  | [] => ret all_rows
  | row :: todo' =>
      formatted <- bulk_row cols row;;
      bulk_loop cols todo'
        (match formatted with
         | Some formatted_row => all_rows ++ [formatted_row]
         | None => all_rows
         end)
  end.

(** The "Bulk Upload CSV" branch once a file is uploaded and the button is
    pressed. *)
Definition bulk_upload (input_df : DataFrame) : M page :=
  if bool_decide ("Product Title" ∉ columns input_df) then
    ret (Stopped "CSV must have a 'Product Title' column.")
  else
    let input_df := default_country input_df in
    all_rows <- bulk_loop (columns input_df) (rows input_df) [];;
    ret (Report all_rows).

End Program.


(** ** Vocabulary of the statements *)

(** The query text of a row: its title, trimmed. *)
Definition query_text (row : gmap string cell) : string :=
  strip (str (default CNaN (row !! "Product Title"))).

(** The country code the loop computes for a row. *)
Definition country_code (row : gmap string cell) : string :=
  lower (strip (str (default CNaN (row !! "Country")))).

(** The locale a request carries in its "gl" field. *)
Definition sent_locale (req : request) : option string :=
  match req with
  | POST _ _ data =>
      match assoc "gl" data with
      | Some (VStr gl) => Some gl
      | _ => None
      end
  | GET _ _ => None
  end.

(** The query a request carries in its "q" field. *)
Definition sent_query (req : request) : option string :=
  match req with
  | POST _ _ data =>
      match assoc "q" data with
      | Some (VStr q) => Some q
      | _ => None
      end
  | GET _ _ => None
  end.


(** A call that succeeds: status 200 and a JSON object whose "shopping"
    entry, when present, is a list of records. *)
Definition shopping_ok (resp : Response)
    (items : list (list (string * value))) : Prop :=
  status_code resp = 200%Z
  ∧ ∃ d, json resp = Some (VDict d)
       ∧ dict_get d "shopping" (VList []) = VList (VDict <$> items).

(** The rows of a frame that the loop does not skip. *)
Definition queried (todo : list (gmap string cell))
    : list (gmap string cell) :=
  filter (λ row, query_text row ≠ "") todo.

(** A row after the Country default of the frame with labels [cols]. *)
Definition country_filled (cols : list string) (row : gmap string cell)
    : gmap string cell :=
  if bool_decide ("Country" ∉ cols) then
    <["Country" := CStr "us"]> row
  else
    <["Country" := fillna (CStr "us") (default CNaN (row !! "Country"))]> row.

(** The request the loop sends for a row that has its Country. *)
Definition row_request (api_key : option string) (row : gmap string cell)
    : request :=
  serper_request api_key (query_text row) (country_code row).

(** The nine fields the formatter writes for each result. *)
Inductive field :=
| Title | Source | Link | Price | ImageURL
| Rating | RatingCount | ProductId | Position.

(** The column name of a field, before the index. *)
Definition label (f : field) : string :=
  match f with
  | Title => "Title"
  | Source => "Source"
  | Link => "Link"
  | Price => "Price"
  | ImageURL => "ImageURL"
  | Rating => "Rating"
  | RatingCount => "RatingCount"
  | ProductId => "ProductId"
  | Position => "Position"
  end.

(** The key of a field in a result record of the provider. *)
Definition source_key (f : field) : string :=
  match f with
  | Title => "title"
  | Source => "source"
  | Link => "link"
  | Price => "price"
  | ImageURL => "imageUrl"
  | Rating => "rating"
  | RatingCount => "ratingCount"
  | ProductId => "productId"
  | Position => "position"
  end.

(** The nine cells of result number [i], taken from the record [d]. *)
Definition result_cells (i : nat) (d : list (string * value)) (row : Row)
    : Row :=
  foldl (λ m f,
           <[indexed (label f) i := dict_get d (source_key f) (VStr "")]> m)
        row
        [Title; Source; Link; Price; ImageURL;
         Rating; RatingCount; ProductId; Position].

(** The cells of the records [items], numbered from [i] on. *)
Fixpoint cells_from (i : nat) (items : list (list (string * value)))
    (row : Row) : Row :=
  match items with
  | [] => row
  | d :: items' => cells_from (S i) items' (result_cells i d row)
  end.

(** ** Sample providers and tables *)

Definition dq : string := String "034"%char "".

(** A result record that holds only its rank, and its JSON text. *)
Definition ranked (n : nat) : list (string * value) :=
  [("position", VInt (Z.of_nat n))].

Definition ranked_text (n : nat) : string :=
  "{" +:+ dq +:+ "position" +:+ dq +:+ ": " +:+ pretty n +:+ "}".

(** The response with status [code] whose body is the JSON object that
    lists the records ranked [ns] under [key]. *)
Definition listing (code : Z) (key : string) (ns : list nat) : Response :=
  {| status_code := code;
     text := "{" +:+ dq +:+ key +:+ dq +:+ ": ["
             +:+ String.concat ", " (ranked_text <$> ns) +:+ "]}";
     json := Some (VDict [(key, VList (VDict ∘ ranked <$> ns))]) |}.

Definition unavailable : Response :=
  {| status_code := 503; text := "Service Unavailable"; json := None |}.

(** A provider that gives the same response to every request. *)
Definition always (resp : Response) : world → request → result Response :=
  λ _ _, Ok resp.

(** A provider that is out of service for the query "Widget B" and finds
    one record for any other query. *)
Definition except_widget_b (w : world) (req : request) : result Response :=
  match sent_query req with
  | Some q => if bool_decide (q = "Widget B") then Ok unavailable
              else Ok (listing 200 "shopping" [1])
  | None => Raise ConnectionError
  end.

Definition widget_a : gmap string cell :=
  {[ "Product Title" := CStr "Widget A"; "Country" := CStr "GB" ]}.

Definition widget_b : gmap string cell :=
  {[ "Product Title" := CStr "Widget B"; "Country" := CNaN ]}.

Definition widget_c : gmap string cell :=
  {[ "Product Title" := CStr " Widget C "; "Country" := CStr "de" ]}.

Definition three_widgets : DataFrame :=
  {| columns := ["Product Title"; "Country"];
     rows := [widget_a; widget_b; widget_c] |}.

(** The table of the end-to-end example with a title of one space in its
    second row: a title with country "GB", a title of white space, and a
    title with no country. *)
Definition widgets_with_blank : DataFrame :=
  {| columns := ["Product Title"; "Country"];
     rows := [ widget_a;
               {[ "Product Title" := CStr " "; "Country" := CStr "us" ]};
               widget_b ] |}.


(** A row whose title field was empty in the file. *)
Definition missing_title : DataFrame :=
  {| columns := ["Product Title"; "Country"];
     rows := [ {[ "Product Title" := CNaN; "Country" := CStr "us" ]} ] |}.

(** ** The page *)

(** One run of the script, top to bottom.  The widgets that take input are
    read from their state; the calls that put something on the page are
    recorded in order.  [st.spinner] leaves nothing on the page. *)

(** [len(x)] *)
Definition py_len (x : value) : result nat :=
  match x with
  | VList l => Ok (length l)
  | VStr s => Ok (String.length s)
  | VDict d => Ok (length d)
  | _ => Raise TypeError
  end.

(** A part of an f-string: literal text or a replacement field. *)
Inductive piece :=
| Lit (s : string)
| Fmt (v : value).

(** What is handed to a display call: an object, or an f-string. *)
Inductive content :=
| Val (v : value)
| FString (parts : list piece).

(** The display calls.  The data of the download button is the CSV text
    that pandas renders for [pd.DataFrame(all_rows)], kept as the rows. *)
Inductive element :=
| st_title (body : content)
| st_header (body : content)
| st_error (body : content)
| st_warning (body : content)
| st_info (body : content)
| st_success (body : content)
| st_markdown (body : content)
| st_write (body : content)
| st_image (image : value) (width : Z)
| st_download_button (label : string) (data : list Row)
    (file_name mime : string).

Inductive search_mode := GoogleCustomSearch | SerperShopping.

Inductive serper_search_mode := SearchByName | BulkUploadCSV.

(** The state of the input widgets during a run: the two selectors, the
    text inputs, the buttons (pressed or not) and the uploaded file, as
    the frame [pd.read_csv] reads from it. *)
Record widgets := {
  sel_mode : search_mode;
  in_query : string;
  btn_google_search : bool;
  sel_serper_mode : serper_search_mode;
  in_product_name : string;
  in_country_code : string;
  btn_serper_search : bool;
  uploaded_file : option DataFrame;
  btn_run_bulk : bool
}.

(** The requests sent and the elements shown so far. *)
Record session := {
  sent : world;
  shown : list element
}.

(** How a run, or a part of it, ends: it goes on with a value, an
    exception escapes, or [st.stop()] halts the script. *)
Inductive ending (A : Type) :=
| Goes (a : A)
| Raises (e : exn)
| Stops.
Arguments Goes {A} a.
Arguments Raises {A} e.
Arguments Stops {A}.

Definition App (A : Type) : Type := session → ending A * session.

Definition app_bind {A B} (c : App A) (k : A → App B) : App B :=
  λ s, match c s with
       | (Goes a, s') => k a s'
       | (Raises e, s') => (Raises e, s')
       | (Stops, s') => (Stops, s')
       end.

Notation "x <-- c ;; k" := (app_bind c (λ x, k))
  (at level 100, c at next level, right associativity, only parsing).
Notation "c >>> k" := (app_bind c (λ _, k))
  (at level 100, k at level 200, right associativity, only parsing).

Definition pass : App unit := λ s, (Goes (), s).

Definition show (e : element) : App unit :=
  λ s, (Goes (), {| sent := sent s; shown := shown s ++ [e] |}).

Definition st_stop : App unit := λ s, (Stops, s).

(** A value or an exception of plain Python code. *)
Definition eval {A} (r : result A) : App A :=
  λ s, (match r with Ok a => Goes a | Raise e => Raises e end, s).

(** A computation that talks to the providers. *)
Definition call {A} (c : M A) : App A :=
  λ s, match c (sent s) with
       | (Ok a, w) => (Goes a, {| sent := w; shown := shown s |})
       | (Raise e, w) => (Raises e, {| sent := w; shown := shown s |})
       end.

(** What [os.getenv] returned, as a Python object. *)
Definition getenv (x : option string) : value :=
  match x with
  | Some s => VStr s
  | None => VNone
  end.

Section Page.

Variable server : world → request → result Response.
Variable GOOGLE_API_KEY GOOGLE_CSE_ID SERPER_API_KEY : option string.
Variable ui : widgets.

(** The entry of result [i] that both result lists start with. *)
Definition show_link (i : nat) (r : value) : App unit :=
  title <-- eval (py_get r "title" (VStr ""));;
  link <-- eval (py_get r "link" (VStr ""));;
  show (st_markdown (FString [Lit "**"; Fmt (VInt (Z.of_nat i)); Lit ". [";
                              Fmt title; Lit "]("; Fmt link; Lit ")**"])).

Definition google_item (i : nat) (item : value) : App unit :=
  show_link i item >>>
  snippet <-- eval (py_get item "snippet" (VStr ""));;
  show (st_write (Val snippet)) >>>
  show (st_markdown (Val (VStr "---"))).

Fixpoint google_items (i : nat) (items : list value) : App unit :=
  match items with
  | [] => pass
  | item :: items' => google_item i item >>> google_items (S i) items'
  end.

Definition google_page : App unit :=
  show (st_header (Val (VStr "Google Custom Search for Products / ASIN"))) >>>
  if negb (truthy (getenv GOOGLE_API_KEY))
     || negb (truthy (getenv GOOGLE_CSE_ID)) then
    show (st_error (Val (VStr
      "Google API key or Custom Search Engine ID not found in environment variables.")))
  else
    let query := in_query ui in
    if btn_google_search ui then
      if negb (truthy (VStr query)) then
        show (st_warning (Val (VStr
          "Please enter a product name or ASIN to search.")))
      else
        results <-- call (google_custom_search server query
                            (default "" GOOGLE_API_KEY)
                            (default "" GOOGLE_CSE_ID));;
        if match results with
           | VDict d => truthy (dict_get d "error" VNone)
           | _ => false
           end then
          message <-- eval (match results with
                            | VDict d => match assoc "error" d with
                                         | Some v => Ok v
                                         | None => Raise KeyError
                                         end
                            | _ => Raise TypeError
                            end);;
          show (st_error (Val message))
        else if negb (truthy results) then
          show (st_info (Val (VStr "No results found.")))
        else
          n <-- eval (py_len results);;
          show (st_success (FString [Lit "Found "; Fmt (VInt (Z.of_nat n));
                                     Lit " results:"])) >>>
          items <-- eval (py_iter results);;
          google_items 1 items
    else pass.

Definition serper_item (i : nat) (r : value) : App unit :=
  show_link i r >>>
  source <-- eval (py_get r "source" (VStr ""));;
  show (st_write (FString [Lit "Source: "; Fmt source])) >>>
  price <-- eval (py_get r "price" (VStr ""));;
  show (st_write (FString [Lit "Price: "; Fmt price])) >>>
  rating <-- eval (py_get r "rating" (VStr ""));;
  rating_count <-- eval (py_get r "ratingCount" (VStr ""));;
  show (st_write (FString [Lit "Rating: "; Fmt rating; Lit " (";
                           Fmt rating_count; Lit " reviews)"])) >>>
  image <-- eval (py_get r "imageUrl" VNone);;
  (if truthy image then
     image <-- eval (py_get r "imageUrl" VNone);;
     show (st_image image 120)
   else pass) >>>
  show (st_markdown (Val (VStr "---"))).

Fixpoint serper_items (i : nat) (items : list value) : App unit :=
  match items with
  | [] => pass
  | r :: items' => serper_item i r >>> serper_items (S i) items'
  end.

Definition search_by_name : App unit :=
  let product_name := in_product_name ui in
  let country_code := in_country_code ui in
  if btn_serper_search ui then
    if negb (truthy (VStr product_name)) then
      show (st_warning (Val (VStr "Please enter a product name to search.")))
    else
      response <-- call (search_serper_shopping server SERPER_API_KEY
                           product_name country_code);;
      if truthy (error response) then
        show (st_error (Val (error response)))
      else
        let results := results response in
        n <-- eval (py_len results);;
        show (st_success (FString [Lit "Found "; Fmt (VInt (Z.of_nat n));
                                   Lit " results:"])) >>>
        items <-- eval (py_iter results);;
        serper_items 1 items
  else pass.

Definition bulk_upload_csv : App unit :=
  match uploaded_file ui with
  | Some input_df =>
      (if bool_decide ("Product Title" ∉ columns input_df) then
         show (st_error (Val (VStr "CSV must have a 'Product Title' column.")))
         >>> st_stop
       else pass) >>>
      let input_df := default_country input_df in
      if btn_run_bulk ui then
        all_rows <-- call (bulk_loop server SERPER_API_KEY
                             (columns input_df) (rows input_df) []);;
        if negb (bool_decide (all_rows = [])) then
          show (st_success (Val (VStr "Bulk search completed."))) >>>
          show (st_download_button "Download Bulk Search Results CSV"
                  all_rows "serper_bulk_search_results.csv" "text/csv")
        else pass
      else pass
  | None => pass
  end.

Definition serper_page : App unit :=
  show (st_header (Val (VStr "Serper Shopping Search"))) >>>
  if negb (truthy (getenv SERPER_API_KEY)) then
    show (st_error (Val (VStr
      "Serper API key not found in environment variables.")))
  else
    match sel_serper_mode ui with
    | SearchByName => search_by_name
    | BulkUploadCSV => bulk_upload_csv
    end.

(** The script below its imports and function definitions. *)
Definition main : App unit :=
  show (st_title (Val (VStr "🔍 Product Info App"))) >>>
  match sel_mode ui with
  | GoogleCustomSearch => google_page
  | SerperShopping => serper_page
  end.

End Page.

(** ** Sample widget states *)

Definition two_columns : list string := ["Product Title"; "Country"].

(** The web search for [query], button pressed. *)
Definition google_ui (query : string) : widgets :=
  {| sel_mode := GoogleCustomSearch; in_query := query;
     btn_google_search := true; sel_serper_mode := SearchByName;
     in_product_name := ""; in_country_code := "us";
     btn_serper_search := false; uploaded_file := None;
     btn_run_bulk := false |}.

(** The shopping search by name, button pressed. *)
Definition serper_ui (product_name country : string) : widgets :=
  {| sel_mode := SerperShopping; in_query := "";
     btn_google_search := false; sel_serper_mode := SearchByName;
     in_product_name := product_name; in_country_code := country;
     btn_serper_search := true; uploaded_file := None;
     btn_run_bulk := false |}.

(** The bulk branch with [df] uploaded. *)
Definition bulk_ui (df : DataFrame) (pressed : bool) : widgets :=
  {| sel_mode := SerperShopping; in_query := "";
     btn_google_search := false; sel_serper_mode := BulkUploadCSV;
     in_product_name := ""; in_country_code := "us";
     btn_serper_search := false; uploaded_file := Some df;
     btn_run_bulk := pressed |}.

(** A provider whose status-200 body is not JSON. *)
Definition garbled : Response :=
  {| status_code := 200; text := "<html>"; json := None |}.

(** A response with neither "shopping" nor "items". *)
Definition empty_object : Response :=
  {| status_code := 200; text := "{}"; json := Some (VDict []) |}.

(** A table with a first column named otherwise. *)
Definition wrong_header : DataFrame :=
  {| columns := ["Name"; "Country"];
     rows := [ {[ "Name" := CStr "Widget A"; "Country" := CStr "GB" ]} ] |}.

(** A table whose titles are white space only: a space, and a tab
    followed by a no-break space (U+00A0). *)
Definition blank_titles : DataFrame :=
  {| columns := two_columns;
     rows := [ {[ "Product Title" := CStr " "; "Country" := CStr "us" ]};
               {[ "Product Title" := CStr (utf8 [9; 194; 160]%N);
                  "Country" := CStr "GB" ]} ] |}.

(** The table of the end-to-end example as [pd.read_csv] reads it from a
    file: the empty title field of the second row is NaN, and so is the
    empty country field of the third. *)
Definition widgets_with_empty_title : DataFrame :=
  {| columns := two_columns;
     rows := [ widget_a;
               {[ "Product Title" := CNaN; "Country" := CStr "us" ]};
               widget_b ] |}.

(** A title padded with a no-break space and an ideographic space
    (U+3000). *)
Definition padded_widget : gmap string cell :=
  {[ "Product Title" := CStr (utf8 [194; 160]%N +:+ " Widget C "
                              +:+ utf8 [227; 128; 128]%N);
     "Country" := CStr "de" ]}.

(** Two shopping records, the second with an image. *)
Definition pictured : list (string * value) :=
  [("title", VStr "Widget"); ("imageUrl", VStr "https://img.example/w.png")].

Definition gallery : Response :=
  {| status_code := 200;
     text := "{" +:+ dq +:+ "shopping" +:+ dq +:+ ": [" +:+ ranked_text 1
             +:+ ", {" +:+ dq +:+ "title" +:+ dq +:+ ": " +:+ dq +:+ "Widget"
             +:+ dq +:+ ", " +:+ dq +:+ "imageUrl" +:+ dq +:+ ": " +:+ dq
             +:+ "https://img.example/w.png" +:+ dq +:+ "}]}";
     json := Some (VDict [("shopping",
                           VList [VDict (ranked 1); VDict pictured])]) |}.

(** A title column of numbers with an empty field is a column of floats. *)
Definition float_title : gmap string cell :=
  {[ "Product Title" := CFloat "123.0"; "Country" := CStr "us" ]}.

(** ** Vocabulary of the further statements *)

(** A string made of characters of [table] only. *)
Inductive spaces_of (table : list string) : string → Prop :=
| spaces_nil : spaces_of table ""
| spaces_cons c s :
    c ∈ table → spaces_of table s → spaces_of table (c +:+ s).

(** No character of the table is the empty string. *)
Definition nonempty_entries (table : list string) : bool :=
  forallb (λ c, negb (bool_decide (c = ""))) table.

(** No character of the table is the beginning of another one. *)
Definition prefix_free (table : list string) : bool :=
  forallb (λ c1,
     forallb (λ c2,
        bool_decide (c1 = c2)
        || negb (bool_decide (is_Some (strip_prefix c1 c2)))) table) table.

(** A record of the shopping results for which the page shows an image. *)
Definition has_image (d : list (string * value)) : bool :=
  truthy (dict_get d "imageUrl" VNone).

(** The images among the elements shown, in order, with their widths. *)
Definition shown_images (elements : list element) : list (value * Z) :=
  omap (λ e, match e with
             | st_image image width => Some (image, width)
             | _ => None
             end)
       elements.

Definition session_start (w : world) : session :=
  {| sent := w; shown := [] |}.

(** The web search is asked for: its mode is selected, its credentials
    are set, the button is pressed and the query is not empty. *)
Definition google_search_pressed (api_key cx : option string) (ui : widgets)
    : Prop :=
  sel_mode ui = GoogleCustomSearch
  ∧ truthy (getenv api_key) = true ∧ truthy (getenv cx) = true
  ∧ btn_google_search ui = true ∧ in_query ui ≠ "".

(** The shopping search by name is asked for. *)
Definition serper_search_pressed (api_key : option string) (ui : widgets)
    : Prop :=
  sel_mode ui = SerperShopping
  ∧ truthy (getenv api_key) = true
  ∧ sel_serper_mode ui = SearchByName
  ∧ btn_serper_search ui = true ∧ in_product_name ui ≠ "".

(** The bulk branch is selected with the file [df] uploaded. *)
Definition bulk_selected (api_key : option string) (ui : widgets)
    (df : DataFrame) : Prop :=
  sel_mode ui = SerperShopping
  ∧ truthy (getenv api_key) = true
  ∧ sel_serper_mode ui = BulkUploadCSV
  ∧ uploaded_file ui = Some df.

(** A part of the script that sends nothing. *)
Definition silent {A} (c : App A) : Prop :=
  ∀ s, sent (c s).2 = sent s.

(** * Properties *)

(** ** Strings *)

Lemma append_assoc (a b c : string) : (a +:+ b) +:+ c = a +:+ b +:+ c.
Proof.
  induction a as [|x a IH]; [done|].
  change ((String x a +:+ b) +:+ c) with (String x ((a +:+ b) +:+ c)).
  change (String x a +:+ b +:+ c) with (String x (a +:+ b +:+ c)).
  by rewrite IH.
Qed.

Lemma append_nil_r (a : string) : a +:+ "" = a.
Proof.
  induction a as [|x a IH]; [done|].
  change (String x a +:+ "") with (String x (a +:+ "")).
  by rewrite IH.
Qed.

Lemma contains_middle (a b c : string) : contains (a +:+ b +:+ c) b.
Proof. by exists a, c. Qed.

Lemma contains_end (a b : string) : contains (a +:+ b) b.
Proof. exists a, "". by rewrite append_nil_r. Qed.

Lemma contains_tail (a b c : string) : contains b c → contains (a +:+ b) c.
Proof.
  intros (x & y & ->). exists (a +:+ x), y. by rewrite append_assoc.
Qed.

(** ** The search clients *)

Section SearchClient.

Variable server : world → request → result Response.
Variable SERPER_API_KEY : option string.

Local Abbreviation search := (search_serper_shopping server SERPER_API_KEY).
Local Abbreviation request_of := (serper_request SERPER_API_KEY).

(** The client sends one request, the same whatever the reply. *)
Lemma search_sends_one query country w :
  (search query country w).2 = w ++ [request_of query country].
Proof.
  unfold search_serper_shopping, bind, send.
  destruct (server w _) as [resp|e]; [|done].
  destruct (negb _); [done|].
  unfold lift, response_json.
  destruct (json resp) as [data|]; [|done].
  destruct (py_get data _ _) as [sh|]; [|done].
  by destruct (py_slice_to 41 sh).
Qed.

Lemma search_not_200 query country w resp :
  server w (request_of query country) = Ok resp →
  status_code resp ≠ 200%Z →
  search query country w =
    (Ok {| error := VStr ("Serper API error: " +:+ pretty (status_code resp)
                          +:+ " - " +:+ text resp);
           results := VList [] |},
     w ++ [request_of query country]).
Proof.
  intros Hresp Hcode. unfold search_serper_shopping, bind, send.
  rewrite Hresp. by apply Z.eqb_neq in Hcode as ->.
Qed.

Lemma search_200 query country w resp d :
  server w (request_of query country) = Ok resp →
  status_code resp = 200%Z →
  json resp = Some (VDict d) →
  search query country w =
    (match py_slice_to 41 (dict_get d "shopping" (VList [])) with
     | Ok found => Ok {| error := VNone; results := found |}
     | Raise e => Raise e
     end,
     w ++ [request_of query country]).
Proof.
  intros Hresp Hcode Hjson. unfold search_serper_shopping, bind, send.
  rewrite Hresp, Hcode. simpl. unfold lift, response_json. rewrite Hjson.
  simpl. by destruct (py_slice_to _ _).
Qed.

(** C1 (as amended): when the provider answers the shopping search with
    status 200 and a JSON object whose "shopping" array has more than 41
    items, the client returns a null error and exactly the first 41 items
    of the array, in their order. *)
Theorem serper_truncates_to_41 query country w resp d items :
  server w (serper_request SERPER_API_KEY query country) = Ok resp →
  status_code resp = 200%Z →
  json resp = Some (VDict d) →
  assoc "shopping" d = Some (VList items) →
  41 < length items →
  (search_serper_shopping server SERPER_API_KEY query country w).1 =
    Ok {| error := VNone; results := VList (take 41 items) |}
  ∧ length (take 41 items) = 41
  ∧ (∀ i, i < 41 → take 41 items !! i = items !! i)
  ∧ items = take 41 items ++ drop 41 items.
Proof.
  intros Hresp Hcode Hjson Hshop Hlen.
  rewrite (search_200 _ _ _ _ _ Hresp Hcode Hjson).
  unfold dict_get. rewrite Hshop. simpl. split_and!.
  - done.
  - rewrite length_take. lia.
  - intros i Hi. by apply lookup_take_lt.
  - by rewrite take_drop.
Qed.

(** C7: an outcome returned by the shopping client never has both a
    non-null error and a non-empty results list: it comes either from the
    error branch (status other than 200: an error message and the empty
    list) or from the success branch (status 200: a null error). *)
Theorem serper_outcome_exclusive query country w o :
  (search_serper_shopping server SERPER_API_KEY query country w).1 = Ok o →
  ¬ (error o ≠ VNone ∧ results o ≠ VList [])
  ∧ ∃ resp, server w (serper_request SERPER_API_KEY query country) = Ok resp
      ∧ ((status_code resp ≠ 200%Z
          ∧ (∃ message, error o = VStr message) ∧ results o = VList [])
         ∨ (status_code resp = 200%Z ∧ error o = VNone)).
Proof.
  intros Hrun.
  destruct (server w (request_of query country)) as [resp|e] eqn:Hresp.
  2: { unfold search_serper_shopping, bind, send in Hrun.
       by rewrite Hresp in Hrun. }
  destruct (decide (status_code resp = 200%Z)) as [Hcode|Hcode].
  - assert (error o = VNone) as Hnull.
    { unfold search_serper_shopping, bind, send in Hrun.
      rewrite Hresp, Hcode in Hrun. simpl in Hrun.
      unfold lift, response_json in Hrun.
      destruct (json resp) as [data|]; [|done]. simpl in Hrun.
      destruct (py_get data _ _) as [sh|]; [|done]. simpl in Hrun.
      destruct (py_slice_to 41 sh); [|done]. simpl in Hrun.
      by inversion Hrun. }
    split; [by intros [Hne _]|]. exists resp. split; [done|]. by right.
  - rewrite (search_not_200 _ _ _ _ Hresp Hcode) in Hrun.
    inversion Hrun; subst o; simpl.
    split; [by intros [_ Hne]|]. exists resp. split; [done|]. left. eauto.
Qed.

(** C8: when the response to the shopping search has a status other than
    200, the client returns an outcome whose error string includes the
    status code in decimal and the raw response body, with the empty
    result list. *)
Theorem serper_http_error_outcome query country w resp :
  server w (serper_request SERPER_API_KEY query country) = Ok resp →
  status_code resp ≠ 200%Z →
  ∃ message,
    (search_serper_shopping server SERPER_API_KEY query country w).1 =
      Ok {| error := VStr message; results := VList [] |}
    ∧ contains message (pretty (status_code resp))
    ∧ contains message (text resp).
Proof.
  intros Hresp Hcode. eexists. split_and!.
  - by rewrite (search_not_200 _ _ _ _ Hresp Hcode).
  - apply contains_middle.
  - do 2 apply contains_tail. apply contains_end.
Qed.

Local Abbreviation google := (google_custom_search server).

(** C9: the web-search client has no cap.  On status 200 it returns what
    the provider's JSON object holds under "items" (the empty list when
    the key is absent), so an items list of any length comes back whole;
    on any other status it returns a dict with the single key "error"
    whose message includes the status code and the response body. *)
Theorem google_custom_search_outcomes query api_key cx w resp :
  server w (google_request query api_key cx) = Ok resp →
  (status_code resp = 200%Z →
   ∀ d, json resp = Some (VDict d) →
     (google_custom_search server query api_key cx w).1
     = Ok (dict_get d "items" (VList []))
     ∧ ∀ items, assoc "items" d = Some (VList items) →
         (google_custom_search server query api_key cx w).1 = Ok (VList items))
  ∧ (status_code resp ≠ 200%Z →
     ∃ message,
       (google_custom_search server query api_key cx w).1
       = Ok (VDict [("error", VStr message)])
       ∧ contains message (pretty (status_code resp))
       ∧ contains message (text resp)).
Proof.
  intros Hresp.
  unfold google_custom_search, bind, send. rewrite Hresp. split.
  - intros Hcode d Hjson. rewrite Hcode. simpl.
    unfold lift, response_json. rewrite Hjson. simpl. split; [done|].
    intros items Hitems. unfold dict_get. by rewrite Hitems.
  - intros Hcode. apply Z.eqb_neq in Hcode as ->. simpl.
    eexists. split_and!; [done| |].
    + apply contains_middle.
    + do 2 apply contains_tail. apply contains_end.
Qed.

End SearchClient.

(** ** The row formatter *)

Lemma indexed_inj (f g : field) (i j : nat) :
  indexed (label f) i = indexed (label g) j → f = g ∧ i = j.
Proof.
  unfold indexed. intros H.
  destruct f, g; cbv [label String.append] in H; try discriminate H;
    (split; [done|]); simplify_eq; by apply (inj pretty).
Qed.

Lemma indexed_not_fixed (f : field) (i : nat) :
  indexed (label f) i ≠ "Product Title"
  ∧ indexed (label f) i ≠ "Search Status"
  ∧ indexed (label f) i ≠ "Error Message".
Proof.
  unfold indexed.
  split_and!; intros H; destruct f; cbv [label String.append] in H;
    discriminate H.
Qed.

Lemma format_result_dict i d row :
  format_result i (VDict d) row = Ok (result_cells i d row).
Proof. reflexivity. Qed.

Lemma format_result_other i r row :
  (∀ d, r ≠ VDict d) → format_result i r row = Raise AttributeError.
Proof. intros Hr. destruct r; try done. by destruct (Hr d). Qed.

Lemma lookup_result_cells_hit i d row (f : field) :
  result_cells i d row !! indexed (label f) i
  = Some (dict_get d (source_key f) (VStr "")).
Proof.
  unfold result_cells; cbn [foldl].
  destruct f;
    repeat (let H := fresh in
            rewrite lookup_insert; case_decide as H;
            [first [done | apply indexed_inj in H as [? ?]; congruence]|]);
    done.
Qed.

Lemma lookup_result_cells_miss i d row key :
  (∀ f, key ≠ indexed (label f) i) →
  result_cells i d row !! key = row !! key.
Proof.
  intros Hkey. unfold result_cells; cbn [foldl].
  repeat (rewrite lookup_insert_ne; [|by apply not_eq_sym, Hkey]).
  done.
Qed.

Lemma lookup_result_cells_inv i d row key v :
  result_cells i d row !! key = Some v →
  (∃ f, key = indexed (label f) i) ∨ row !! key = Some v.
Proof.
  unfold result_cells; cbn [foldl].
  repeat (let H := fresh in
          rewrite lookup_insert; case_decide as H;
          [intros _; left; eexists; symmetry; exact H|]).
  by right.
Qed.

Lemma size_result_cells i d row :
  (∀ f, row !! indexed (label f) i = None) →
  size (result_cells i d row) = 9 + size row.
Proof.
  intros Hfresh. unfold result_cells; cbn [foldl].
  repeat (rewrite map_size_insert_None;
          [|repeat (rewrite lookup_insert_ne;
                    [|by intros [? ?]%indexed_inj]);
            apply Hfresh]).
  done.
Qed.

Lemma format_loop_dicts i items row :
  format_loop i (VDict <$> items) row = Ok (cells_from i items row).
Proof.
  revert i row. induction items as [|d items IH]; intros i row; [done|].
  simpl. apply IH.
Qed.

Lemma lookup_cells_from_miss i items row key :
  (∀ f j, j < length items → key ≠ indexed (label f) (i + j)) →
  cells_from i items row !! key = row !! key.
Proof.
  revert i row. induction items as [|d items IH]; intros i row Hkey; [done|].
  simpl. rewrite IH.
  - apply lookup_result_cells_miss. intros f.
    specialize (Hkey f 0). rewrite Nat.add_0_r in Hkey. apply Hkey. simpl. lia.
  - intros f j Hj. replace (S i + j) with (i + S j) by lia.
    apply Hkey. simpl. lia.
Qed.

Lemma lookup_cells_from_hit i items row j d (f : field) :
  items !! j = Some d →
  cells_from i items row !! indexed (label f) (i + j)
  = Some (dict_get d (source_key f) (VStr "")).
Proof.
  revert i row j. induction items as [|d' items IH]; intros i row j Hj;
    [done|].
  destruct j as [|j]; simpl in *.
  - simplify_eq. rewrite Nat.add_0_r, lookup_cells_from_miss.
    + apply lookup_result_cells_hit.
    + intros g j _ [_ ?]%indexed_inj. lia.
  - replace (i + S j) with (S i + j) by lia. by apply IH.
Qed.

Lemma lookup_cells_from_inv i items row key v :
  cells_from i items row !! key = Some v →
  (∃ f j, j < length items ∧ key = indexed (label f) (i + j))
  ∨ row !! key = Some v.
Proof.
  revert i row. induction items as [|d items IH]; intros i row; simpl.
  { by right. }
  intros [(f & j & Hj & ->)|Hrow]%IH.
  - left. exists f, (S j). split; [simpl; lia|].
    by replace (i + S j) with (S i + j) by lia.
  - apply lookup_result_cells_inv in Hrow as [[f ->]|Hrow]; [|by right].
    left. exists f, 0. split; [simpl; lia|]. by rewrite Nat.add_0_r.
Qed.

Lemma size_cells_from i items row :
  (∀ f j, i ≤ j → row !! indexed (label f) j = None) →
  size (cells_from i items row) = 9 * length items + size row.
Proof.
  revert i row. induction items as [|d items IH]; intros i row Hfresh; [done|].
  simpl. rewrite IH.
  - rewrite size_result_cells; [lia|]. intros f. by apply Hfresh.
  - intros f j Hj. rewrite lookup_result_cells_miss.
    + apply Hfresh. lia.
    + intros g [_ ?]%indexed_inj. lia.
Qed.

Lemma lookup_header_indexed product_title status (f : field) i :
  (<["Search Status" := status]>
     (<["Product Title" := VStr product_title]> (∅ : Row)))
    !! indexed (label f) i = None.
Proof.
  destruct (indexed_not_fixed f i) as (Ht & Hs & _).
  by rewrite !lookup_insert_ne.
Qed.

Lemma size_header product_title status :
  size (<["Search Status" := status]>
          (<["Product Title" := VStr product_title]> (∅ : Row))) = 2.
Proof. by rewrite !map_size_insert_None. Qed.

(** C3: for every query text and every error-free outcome whose results
    are k records, the formatter returns a row that holds the query text
    under "Product Title", the status "Success", and for each position
    i = 1..k the nine fields "Title i" ... "Position i" of the i-th
    record, each the empty string when the record lacks that field; the
    row has no key besides these, 2 + 9k in all. *)
Theorem format_results_success product_title
    (items : list (list (string * value))) error :
  truthy error = false →
  ∃ row,
    format_results_for_csv product_title (VList (VDict <$> items)) error
      = Ok row
    ∧ row !! "Product Title" = Some (VStr product_title)
    ∧ row !! "Search Status" = Some (VStr "Success")
    ∧ (∀ i d (f : field), items !! i = Some d →
         row !! indexed (label f) (S i)
         = Some (default (VStr "") (assoc (source_key f) d)))
    ∧ (∀ key, is_Some (row !! key) ↔
         key = "Product Title" ∨ key = "Search Status"
         ∨ ∃ (f : field) i, 1 ≤ i ≤ length items ∧ key = indexed (label f) i)
    ∧ size row = 2 + 9 * length items.
Proof.
  intros Herr. unfold format_results_for_csv. rewrite Herr. simpl.
  rewrite format_loop_dicts. eexists. split; [done|].
  assert (∀ key, key = "Product Title" ∨ key = "Search Status" →
            ∀ (f : field) j, key ≠ indexed (label f) (1 + j)) as Hfixed.
  { intros key Hkey f j ->.
    destruct (indexed_not_fixed f (1 + j)) as (? & ? & _).
    by destruct Hkey. }
  split_and!.
  - rewrite lookup_cells_from_miss by (intros f j _; apply Hfixed; auto).
    done.
  - rewrite lookup_cells_from_miss by (intros f j _; apply Hfixed; auto).
    done.
  - intros i d f Hi. by apply (lookup_cells_from_hit 1).
  - intros key. split.
    + intros [v [(f & j & Hj & ->)|Hv]%lookup_cells_from_inv].
      * right; right. exists f, (S j). split; [lia|done].
      * rewrite lookup_insert in Hv. case_decide; [by right; left|].
        rewrite lookup_insert in Hv. case_decide; [by left|done].
    + intros [->|[->|(f & i & Hi & ->)]].
      * rewrite lookup_cells_from_miss by (intros f j _; apply Hfixed; auto).
        done.
      * rewrite lookup_cells_from_miss by (intros f j _; apply Hfixed; auto).
        done.
      * destruct i as [|j]; [lia|].
        destruct (lookup_lt_is_Some_2 items j) as [d Hd]; [lia|].
        rewrite (lookup_cells_from_hit 1 _ _ _ _ _ Hd). eauto.
  - rewrite size_cells_from, size_header; [lia|].
    intros f j _. apply lookup_header_indexed.
Qed.

(** C4 (as amended): for every query text and every outcome whose error
    is truthy (not null and not the empty string), the formatter returns
    a row that holds the query text, the status "Error" and the error
    message, and none of the indexed result fields. *)
Theorem format_results_error product_title results error :
  truthy error = true →
  ∃ row,
    format_results_for_csv product_title results error = Ok row
    ∧ row !! "Product Title" = Some (VStr product_title)
    ∧ row !! "Search Status" = Some (VStr "Error")
    ∧ row !! "Error Message" = Some error
    ∧ ∀ (f : field) i, row !! indexed (label f) i = None.
Proof.
  intros Herr. unfold format_results_for_csv. rewrite Herr.
  eexists. split; [done|]. split_and!; try done.
  intros f i. destruct (indexed_not_fixed f i) as (_ & _ & He).
  rewrite lookup_insert_ne by done. apply lookup_header_indexed.
Qed.

(** C10 (as amended): when the error argument is truthy (not null and not
    the empty string), the row does not depend on the results argument:
    for any two results values the rows are equal, and the row has exactly
    the three fields "Product Title", "Search Status" = "Error" and
    "Error Message". *)
Theorem format_results_error_ignores_results product_title error
    results1 results2 :
  truthy error = true →
  format_results_for_csv product_title results1 error
  = format_results_for_csv product_title results2 error
  ∧ format_results_for_csv product_title results1 error
    = Ok (<["Error Message" := error]>
            (<["Search Status" := VStr "Error"]>
               (<["Product Title" := VStr product_title]> ∅)))
  ∧ ∀ row, format_results_for_csv product_title results1 error = Ok row →
      dom row = {["Product Title"; "Search Status"; "Error Message"]}
      ∧ size row = 3.
Proof.
  intros Herr. unfold format_results_for_csv. rewrite Herr.
  split_and!; try done.
  intros row [= <-]. split.
  - rewrite !dom_insert_L, dom_empty_L. set_solver.
  - by rewrite !map_size_insert_None.
Qed.

Lemma format_loop_ok_dicts i items row row' :
  format_loop i items row = Ok row' → ∃ ds, items = VDict <$> ds.
Proof.
  revert i row. induction items as [|r items IH]; intros i row Hrun.
  { by exists []. }
  simpl in Hrun. destruct r as [| | | | | |d]; try discriminate Hrun.
  rewrite format_result_dict in Hrun. simpl in Hrun.
  apply IH in Hrun as [ds ->]. by exists (d :: ds).
Qed.

(** Whatever the outcome, a row that is returned carries the query text
    and the status that the error decides. *)
Lemma format_keeps_title product_title results error row :
  format_results_for_csv product_title results error = Ok row →
  row !! "Product Title" = Some (VStr product_title)
  ∧ row !! "Search Status"
    = Some (VStr (if truthy error then "Error" else "Success")).
Proof.
  unfold format_results_for_csv.
  destruct (truthy error) eqn:Herr.
  { by intros [= <-]. }
  destruct (py_iter results) as [items|] eqn:Hiter; [|done]. simpl.
  intros Hrun. destruct (format_loop_ok_dicts _ _ _ _ Hrun) as [ds ->].
  rewrite format_loop_dicts in Hrun. injection Hrun as <-.
  split; (rewrite lookup_cells_from_miss; [done|]); intros f j _ H;
    destruct (indexed_not_fixed f (1 + j)) as (? & ? & _); congruence.
Qed.

(** ** Lower-casing *)





(** ** The Country default *)

Lemma rows_default_country df :
  rows (default_country df) = country_filled (columns df) <$> rows df.
Proof.
  unfold default_country, country_filled.
  by destruct (bool_decide ("Country" ∉ columns df)).
Qed.

Lemma columns_default_country df :
  "Country" ∈ columns (default_country df)
  ∧ ("Product Title" ∈ columns df →
     "Product Title" ∈ columns (default_country df)).
Proof.
  unfold default_country.
  destruct (bool_decide ("Country" ∉ columns df)) eqn:Hc; simpl.
  - apply bool_decide_eq_true in Hc.
    rewrite bool_decide_eq_false_2 by done. set_solver.
  - apply bool_decide_eq_false in Hc. split; [|done].
    by destruct (decide ("Country" ∈ columns df)).
Qed.

Lemma query_text_country_filled cols row :
  query_text (country_filled cols row) = query_text row.
Proof.
  unfold query_text, country_filled.
  by destruct (bool_decide _); rewrite lookup_insert_ne.
Qed.

Lemma queried_country_filled cols todo :
  queried (country_filled cols <$> todo) = country_filled cols <$> queried todo.
Proof.
  unfold queried. induction todo as [|row todo IH]; [done|].
  rewrite fmap_cons, !filter_cons, IH, query_text_country_filled.
  by destruct (decide (query_text row ≠ "")).
Qed.


(** ** The bulk runner *)

Section BulkRunner.

Variable server : world → request → result Response.
Variable SERPER_API_KEY : option string.

Local Abbreviation search := (search_serper_shopping server SERPER_API_KEY).
Local Abbreviation run_row := (bulk_row server SERPER_API_KEY).
Local Abbreviation run_loop := (bulk_loop server SERPER_API_KEY).
Local Abbreviation run := (bulk_upload server SERPER_API_KEY).
Local Abbreviation request_of := (row_request SERPER_API_KEY).

Lemma bulk_row_blank cols row w :
  "Product Title" ∈ cols → "Country" ∈ cols →
  query_text row = "" →
  run_row cols row w = (Ok None, w).
Proof.
  intros Ht Hc Hblank. unfold bulk_row, loc.
  rewrite !bool_decide_eq_true_2 by done.
  unfold bind at 1, lift at 1. unfold bind at 1, lift at 1.
  fold (query_text row). rewrite Hblank. reflexivity.
Qed.

Lemma bulk_row_queried cols row w :
  "Product Title" ∈ cols → "Country" ∈ cols →
  query_text row ≠ "" →
  run_row cols row w =
    (match (search (query_text row) (country_code row) w).1 with
     | Ok response =>
         match (if truthy (error response) then
                  format_results_for_csv (query_text row) (VList [])
                    (error response)
                else
                  format_results_for_csv (query_text row) (results response)
                    VNone) with
         | Ok formatted_row => Ok (Some formatted_row)
         | Raise e => Raise e
         end
     | Raise e => Raise e
     end,
     w ++ [request_of row]).
Proof.
  intros Ht Hc Hq. unfold bulk_row, loc.
  rewrite !bool_decide_eq_true_2 by done.
  unfold bind at 1, lift at 1. unfold bind at 1, lift at 1.
  fold (query_text row). fold (country_code row).
  assert (truthy (VStr (query_text row)) = true) as ->.
  { simpl. by rewrite bool_decide_eq_false_2. }
  change (negb true) with false. cbv beta iota. unfold bind at 1.
  pose proof (search_sends_one server SERPER_API_KEY
                (query_text row) (country_code row) w) as Hsent.
  destruct (search (query_text row) (country_code row) w) as [[o|e] w1];
    simpl in Hsent; subst w1; simpl; [|done].
  unfold bind, lift, ret.
  by destruct (if truthy (error o) then _ else _).
Qed.

Lemma bulk_loop_cons cols row todo all_rows w :
  run_loop cols (row :: todo) all_rows w =
    match run_row cols row w with
    | (Ok formatted, w1) =>
        run_loop cols todo
          (match formatted with
           | Some formatted_row => all_rows ++ [formatted_row]
           | None => all_rows
           end) w1
    | (Raise e, w1) => (Raise e, w1)
    end.
Proof. reflexivity. Qed.

(** Skipped rows leave no trace: the loop over a frame is the loop over
    its rows with a non-blank title. *)
Lemma bulk_loop_skip cols todo all_rows w :
  "Product Title" ∈ cols → "Country" ∈ cols →
  run_loop cols todo all_rows w = run_loop cols (queried todo) all_rows w.
Proof.
  intros Ht Hc. revert all_rows w.
  induction todo as [|row todo IH]; intros all_rows w; [done|].
  unfold queried. rewrite filter_cons.
  destruct (decide (query_text row ≠ "")) as [Hq|Hq].
  - rewrite !bulk_loop_cons.
    destruct (run_row cols row w) as [[formatted|e] w1]; [|done]. apply IH.
  - apply dec_stable in Hq.
    rewrite bulk_loop_cons, bulk_row_blank by done. apply IH.
Qed.

(** The requests of a run are those of the non-blank rows, in order, up to
    the row at which an exception ends it. *)
Lemma bulk_loop_sent cols todo all_rows w :
  "Product Title" ∈ cols → "Country" ∈ cols →
  ∃ sent, (run_loop cols todo all_rows w).2 = w ++ sent
          ∧ sent `prefix_of` (request_of <$> queried todo).
Proof.
  intros Ht Hc. revert all_rows w.
  induction todo as [|row todo IH]; intros all_rows w.
  { exists []. split; [by rewrite app_nil_r|done]. }
  unfold queried. rewrite filter_cons, bulk_loop_cons.
  destruct (decide (query_text row ≠ "")) as [Hq|Hq].
  - rewrite bulk_row_queried by done.
    destruct (match (search _ _ w).1 with Ok _ => _ | Raise e => Raise e end)
      as [formatted|e].
    + destruct (IH (match formatted with
                    | Some formatted_row => all_rows ++ [formatted_row]
                    | None => all_rows
                    end) (w ++ [request_of row])) as (sent & -> & Hpre).
      exists (request_of row :: sent). split; [by rewrite <- app_assoc|].
      rewrite fmap_cons. by apply prefix_cons.
    + exists [request_of row]. split; [done|].
      rewrite fmap_cons. apply prefix_cons, prefix_nil.
  - apply dec_stable in Hq. rewrite bulk_row_blank by done. apply IH.
Qed.

(** A run that comes to its end has sent one request and gathered one row
    for each non-blank row of the frame, in order. *)
Lemma bulk_loop_report cols todo all_rows w out w' :
  "Product Title" ∈ cols → "Country" ∈ cols →
  run_loop cols todo all_rows w = (Ok out, w') →
  w' = w ++ (request_of <$> queried todo)
  ∧ ∃ new, out = all_rows ++ new
      ∧ Forall2 (λ (formatted_row : Row) row,
                   formatted_row !! "Product Title"
                   = Some (VStr (query_text row)))
                new (queried todo).
Proof.
  intros Ht Hc. revert all_rows w.
  induction todo as [|row todo IH]; intros all_rows w Hrun.
  { injection Hrun as <- <-. rewrite app_nil_r. split; [done|].
    exists []. by rewrite app_nil_r. }
  unfold queried. rewrite filter_cons. rewrite bulk_loop_cons in Hrun.
  destruct (decide (query_text row ≠ "")) as [Hq|Hq].
  - rewrite bulk_row_queried in Hrun by done.
    destruct ((search _ _ w).1) as [o|e]; [|done].
    destruct (if truthy (error o) then _ else _) as [formatted_row|e] eqn:Hf;
      [|done].
    apply IH in Hrun as (-> & new & -> & Hnew).
    split; [by rewrite fmap_cons, <- app_assoc|].
    exists (formatted_row :: new). split; [by rewrite <- app_assoc|].
    constructor; [|done].
    destruct (truthy (error o)); by apply format_keeps_title in Hf as [? _].
  - apply dec_stable in Hq. rewrite bulk_row_blank in Hrun by done.
    by apply IH.
Qed.

Lemma truthy_serper_error code body :
  truthy (VStr ("Serper API error: " +:+ code +:+ " - " +:+ body)) = true.
Proof. reflexivity. Qed.

(** A row whose call comes back with a status other than 200 is recorded
    as an error row, and the loop goes on. *)
Lemma bulk_row_http_error cols row w resp :
  "Product Title" ∈ cols → "Country" ∈ cols →
  query_text row ≠ "" →
  server w (request_of row) = Ok resp →
  status_code resp ≠ 200%Z →
  run_row cols row w =
    (Ok (Some (<["Error Message" :=
                   VStr ("Serper API error: " +:+ pretty (status_code resp)
                         +:+ " - " +:+ text resp)]>
                 (<["Search Status" := VStr "Error"]>
                    (<["Product Title" := VStr (query_text row)]> ∅)))),
     w ++ [request_of row]).
Proof.
  intros Ht Hc Hq Hresp Hcode. rewrite bulk_row_queried by done.
  rewrite (search_not_200 _ _ _ _ _ _ Hresp Hcode). cbn [fst error].
  rewrite truthy_serper_error. unfold format_results_for_csv.
  by rewrite truthy_serper_error.
Qed.

Lemma bulk_row_success cols row w resp items :
  "Product Title" ∈ cols → "Country" ∈ cols →
  query_text row ≠ "" →
  server w (request_of row) = Ok resp →
  shopping_ok resp items →
  ∃ formatted_row,
    run_row cols row w = (Ok (Some formatted_row), w ++ [request_of row])
    ∧ formatted_row !! "Product Title" = Some (VStr (query_text row))
    ∧ formatted_row !! "Search Status" = Some (VStr "Success")
    ∧ formatted_row !! "Error Message" = None.
Proof.
  intros Ht Hc Hq Hresp (Hcode & d & Hjson & Hshop).
  rewrite bulk_row_queried by done.
  rewrite (search_200 _ _ _ _ _ _ _ Hresp Hcode Hjson), Hshop.
  cbn [fst py_slice_to error results truthy]. rewrite <- fmap_take.
  destruct (format_results_for_csv (query_text row)
              (VList (VDict <$> take 41 items)) VNone)
    as [formatted_row|e] eqn:Hf.
  2: { unfold format_results_for_csv in Hf. simpl in Hf.
       by rewrite format_loop_dicts in Hf. }
  exists formatted_row.
  destruct (format_keeps_title _ _ _ _ Hf) as [Hpt Hss].
  split_and!; try done.
  unfold format_results_for_csv in Hf. simpl in Hf.
  rewrite format_loop_dicts in Hf. injection Hf as <-.
  rewrite lookup_cells_from_miss; [done|].
  intros f j _ H. by destruct (indexed_not_fixed f (1 + j)) as (_ & _ & ?).
Qed.

(** C2: a bulk input of three non-blank rows, the call for the second
    answered with a status other than 200 and the calls for the first and
    third answered successfully, yields a report of exactly three rows in
    input order: the second has status "Error" and a message that contains
    the status code, the first and third have status "Success".  The error
    of the second row does not end the run. *)
Theorem bulk_continues_after_error df row1 row2 row3 w
    resp1 resp2 resp3 items1 items3 :
  let fill := country_filled (columns df) in
  let req1 := row_request SERPER_API_KEY (fill row1) in
  let req2 := row_request SERPER_API_KEY (fill row2) in
  let req3 := row_request SERPER_API_KEY (fill row3) in
  "Product Title" ∈ columns df →
  rows df = [row1; row2; row3] →
  query_text row1 ≠ "" → query_text row2 ≠ "" → query_text row3 ≠ "" →
  server w req1 = Ok resp1 → shopping_ok resp1 items1 →
  server (w ++ [req1]) req2 = Ok resp2 → status_code resp2 ≠ 200%Z →
  server (w ++ [req1; req2]) req3 = Ok resp3 → shopping_ok resp3 items3 →
  ∃ (out1 out2 out3 : Row) message,
    bulk_upload server SERPER_API_KEY df w
    = (Ok (Report [out1; out2; out3]), w ++ [req1; req2; req3])
    ∧ out1 !! "Product Title" = Some (VStr (query_text row1))
    ∧ out1 !! "Search Status" = Some (VStr "Success")
    ∧ out2 !! "Product Title" = Some (VStr (query_text row2))
    ∧ out2 !! "Search Status" = Some (VStr "Error")
    ∧ out2 !! "Error Message" = Some (VStr message)
    ∧ contains message (pretty (status_code resp2))
    ∧ out3 !! "Product Title" = Some (VStr (query_text row3))
    ∧ out3 !! "Search Status" = Some (VStr "Success").
Proof.
  intros fill req1 req2 req3 Ht Hrows Hq1 Hq2 Hq3
    Hresp1 Hok1 Hresp2 Hcode2 Hresp3 Hok3.
  destruct (columns_default_country df) as [Hc Ht']. specialize (Ht' Ht).
  unfold bulk_upload. rewrite bool_decide_eq_false_2 by (intros H; by apply H).
  cbv zeta. unfold bind at 1.
  rewrite rows_default_country, Hrows. cbn [fmap list_fmap]. fold fill.
  destruct (bulk_row_success (columns (default_country df)) (fill row1) w
              resp1 items1) as (out1 & Hrun1 & Hpt1 & Hss1 & _);
    [done|done|by unfold fill; rewrite query_text_country_filled|done|done|].
  pose proof (bulk_row_http_error (columns (default_country df)) (fill row2)
                (w ++ [req1]) resp2) as Hrun2.
  destruct (bulk_row_success (columns (default_country df)) (fill row3)
              (w ++ [req1; req2]) resp3 items3)
    as (out3 & Hrun3 & Hpt3 & Hss3 & _);
    [done|done|by unfold fill; rewrite query_text_country_filled|done|done|].
  rewrite bulk_loop_cons, Hrun1, bulk_loop_cons. fold req1.
  rewrite Hrun2;
    [|done|done|by unfold fill; rewrite query_text_country_filled|done|done].
  fold req2. cbn [app]. rewrite <- (app_assoc w). cbn [app].
  rewrite bulk_loop_cons, Hrun3. fold req3. rewrite <- (app_assoc w).
  cbn [app bulk_loop]. unfold ret.
  unfold fill in Hpt1, Hpt3. rewrite query_text_country_filled in Hpt1, Hpt3.
  eexists out1, _, out3, _. split; [reflexivity|].
  split_and!; try done.
  - unfold fill. by rewrite query_text_country_filled.
  - apply contains_middle.
Qed.

(** The run over a frame is the run over the rows its loop does not skip,
    those whose title text is not empty once trimmed (the text of an
    empty field, "nan", is not): the other rows add no row to the report,
    send no request and raise nothing.  A run that comes to its end
    reports one row per row not skipped, in input order, each with that
    row's query text, and has sent one request per such row. *)
Lemma bulk_upload_queried_rows df w :
  bulk_upload server SERPER_API_KEY df w
  = bulk_upload server SERPER_API_KEY
      {| columns := columns df; rows := queried (rows df) |} w
  ∧ ∀ all_rows w',
      bulk_upload server SERPER_API_KEY df w = (Ok (Report all_rows), w') →
      Forall2 (λ (formatted_row : Row) row,
                 formatted_row !! "Product Title"
                 = Some (VStr (query_text row)))
              all_rows (queried (rows df))
      ∧ length all_rows = length (queried (rows df))
      ∧ w' = w ++ (row_request SERPER_API_KEY ∘ country_filled (columns df)
                   <$> queried (rows df)).
Proof.
  unfold bulk_upload. cbn [columns].
  destruct (bool_decide ("Product Title" ∉ columns df)) eqn:Ht.
  { split; [done|]. intros all_rows w'. by unfold ret. }
  apply bool_decide_eq_false in Ht. apply dec_stable in Ht.
  destruct (columns_default_country df) as [Hc Ht']. specialize (Ht' Ht).
  cbv zeta.
  assert (columns (default_country
                     {| columns := columns df; rows := queried (rows df) |})
          = columns (default_country df)) as Hcols.
  { unfold default_country. cbn [columns].
    by destruct (bool_decide ("Country" ∉ columns df)). }
  split.
  - unfold bind. rewrite Hcols, !rows_default_country. cbn [columns rows].
    rewrite (bulk_loop_skip _ (country_filled _ <$> rows df)) by done.
    by rewrite queried_country_filled.
  - intros all_rows w'. unfold bind.
    destruct (run_loop _ _ [] w) as [[out|e] w1] eqn:Hrun; [|done].
    unfold ret. intros [= -> ->].
    apply bulk_loop_report in Hrun as (-> & new & -> & Hnew); [|done..].
    rewrite rows_default_country, queried_country_filled in Hnew |- *.
    rewrite app_nil_l.
    apply Forall2_fmap_r in Hnew.
    assert (Forall2 (λ (formatted_row : Row) row,
                       formatted_row !! "Product Title"
                       = Some (VStr (query_text row)))
                    new (queried (rows df))) as Hnew'.
    { eapply Forall2_impl; [exact Hnew|]. intros fr row. simpl.
      by rewrite query_text_country_filled. }
    split_and!; [done|by eapply Forall2_length|].
    by rewrite <- list_fmap_compose.
Qed.


End BulkRunner.

(** ** The claims on sample inputs *)

Lemma serper_truncates_to_41_witness :
  41 < length (VDict ∘ ranked <$> seq 1 42)
  ∧ (search_serper_shopping (always (listing 200 "shopping" (seq 1 42))) None
       "widget" "us" []).1
    = Ok {| error := VNone;
            results := VList (take 41 (VDict ∘ ranked <$> seq 1 42)) |}.
Proof.
  split; [vm_compute; lia|].
  apply (serper_truncates_to_41 (always (listing 200 "shopping" (seq 1 42)))
           None "widget" "us" [] (listing 200 "shopping" (seq 1 42))
           [("shopping", VList (VDict ∘ ranked <$> seq 1 42))]
           (VDict ∘ ranked <$> seq 1 42));
    [reflexivity..|vm_compute; lia].
Defined.

(** A response with status 500 whose JSON body lists 42 shopping items
    gives an error outcome with no results, not the first 41 items. *)
Lemma serper_truncation_needs_status_200 :
  json (listing 500 "shopping" (seq 1 42))
  = Some (VDict [("shopping", VList (VDict ∘ ranked <$> seq 1 42))])
  ∧ 41 < length (VDict ∘ ranked <$> seq 1 42)
  ∧ (∃ message,
       (search_serper_shopping (always (listing 500 "shopping" (seq 1 42)))
          None "widget" "us" []).1
       = Ok {| error := VStr message; results := VList [] |})
  ∧ (search_serper_shopping (always (listing 500 "shopping" (seq 1 42))) None
       "widget" "us" []).1
    ≠ Ok {| error := VNone;
            results := VList (take 41 (VDict ∘ ranked <$> seq 1 42)) |}.
Proof.
  split_and!; [reflexivity|vm_compute; lia|by eexists|].
  vm_compute. discriminate.
Qed.

Lemma serper_outcome_exclusive_witness :
  (search_serper_shopping (always unavailable) None "widget" "us" []).1
  = Ok {| error := VStr "Serper API error: 503 - Service Unavailable";
          results := VList [] |}
  ∧ ¬ (VStr "Serper API error: 503 - Service Unavailable" ≠ VNone
       ∧ VList [] ≠ VList []).
Proof.
  split; [reflexivity|].
  apply (serper_outcome_exclusive (always unavailable) None "widget" "us" []
           {| error := VStr "Serper API error: 503 - Service Unavailable";
              results := VList [] |}).
  reflexivity.
Defined.

Lemma serper_http_error_outcome_witness :
  status_code unavailable ≠ 200%Z
  ∧ ∃ message,
      (search_serper_shopping (always unavailable) None "widget" "us" []).1
      = Ok {| error := VStr message; results := VList [] |}
      ∧ contains message (pretty (status_code unavailable))
      ∧ contains message (text unavailable).
Proof.
  split; [discriminate|].
  apply (serper_http_error_outcome (always unavailable) None "widget" "us" []
           unavailable); [reflexivity|discriminate].
Defined.

Lemma google_custom_search_outcomes_witness :
  (google_custom_search (always (listing 200 "items" (seq 1 42)))
     "B08VF4SCD1" "key" "cx" []).1
  = Ok (VList (VDict ∘ ranked <$> seq 1 42))
  ∧ length (VDict ∘ ranked <$> seq 1 42) = 42
  ∧ ∃ message,
      (google_custom_search (always unavailable) "B08VF4SCD1" "key" "cx" []).1
      = Ok (VDict [("error", VStr message)])
      ∧ contains message "503"
      ∧ contains message "Service Unavailable".
Proof.
  split_and!; [|reflexivity|].
  - destruct (google_custom_search_outcomes
                (always (listing 200 "items" (seq 1 42)))
                "B08VF4SCD1" "key" "cx" [] (listing 200 "items" (seq 1 42))
                eq_refl) as [Hfound _].
    destruct (Hfound eq_refl _ eq_refl) as [_ Hitems].
    exact (Hitems _ eq_refl).
  - destruct (google_custom_search_outcomes (always unavailable)
                "B08VF4SCD1" "key" "cx" [] unavailable eq_refl)
      as [_ Herror].
    apply Herror. discriminate.
Defined.

Lemma format_results_success_witness :
  truthy VNone = false
  ∧ ∃ row,
      format_results_for_csv "widget"
        (VList (VDict <$> [ranked 1; [("title", VStr "Widget")]])) VNone
      = Ok row
      ∧ row !! "Title 1" = Some (VStr "")
      ∧ row !! "Position 1" = Some (VInt 1)
      ∧ row !! "Title 2" = Some (VStr "Widget")
      ∧ row !! "Title 3" = None
      ∧ size row = 20.
Proof.
  split; [reflexivity|].
  destruct (format_results_success "widget"
              [ranked 1; [("title", VStr "Widget")]] VNone eq_refl)
    as (row & Hrun & _ & _ & Hcell & Hdom & Hsize).
  exists row. split; [exact Hrun|]. split_and!.
  - exact (Hcell 0 _ Title eq_refl).
  - exact (Hcell 0 _ Position eq_refl).
  - exact (Hcell 1 _ Title eq_refl).
  - apply eq_None_not_Some. intros Hsome. apply Hdom in Hsome.
    destruct Hsome as [H|[H|(f & i & [_ Hi] & H)]]; [discriminate H..|].
    change (indexed (label Title) 3 = indexed (label f) i) in H.
    apply indexed_inj in H as [_ <-]. simpl in Hi. lia.
  - exact Hsize.
Defined.

Lemma format_results_error_witness :
  truthy (VStr "Serper API error: 503 - Service Unavailable") = true
  ∧ ∃ row,
      format_results_for_csv "widget" (VList [])
        (VStr "Serper API error: 503 - Service Unavailable") = Ok row
      ∧ row !! "Product Title" = Some (VStr "widget")
      ∧ row !! "Search Status" = Some (VStr "Error")
      ∧ row !! "Error Message"
        = Some (VStr "Serper API error: 503 - Service Unavailable")
      ∧ ∀ (f : field) i, row !! indexed (label f) i = None.
Proof.
  split; [reflexivity|].
  apply (format_results_error "widget" (VList [])
           (VStr "Serper API error: 503 - Service Unavailable")).
  reflexivity.
Defined.

(** An error that is the empty string is not null, yet the row has status
    "Success" and no error message. *)
Lemma format_results_empty_error_is_success :
  VStr "" ≠ VNone
  ∧ ∃ row,
      format_results_for_csv "widget" (VList []) (VStr "") = Ok row
      ∧ row !! "Search Status" = Some (VStr "Success")
      ∧ row !! "Error Message" = None.
Proof. split; [discriminate|]. by eexists. Qed.

Lemma format_results_error_ignores_results_witness :
  truthy (VStr "boom") = true
  ∧ format_results_for_csv "widget" (VList []) (VStr "boom")
    = format_results_for_csv "widget" (VList [VDict (ranked 1)]) (VStr "boom").
Proof.
  split; [reflexivity|].
  apply (format_results_error_ignores_results "widget" (VStr "boom")
           (VList []) (VList [VDict (ranked 1)])).
  reflexivity.
Defined.

(** With the empty string as error, which is not null, the row changes
    with the results. *)
Lemma format_results_empty_error_depends_on_results :
  VStr "" ≠ VNone
  ∧ format_results_for_csv "widget" (VList []) (VStr "")
    ≠ format_results_for_csv "widget" (VList [VDict (ranked 1)]) (VStr "").
Proof.
  split; [discriminate|]. intros H.
  apply (f_equal (λ r, match r with
                       | Ok row => row !! "Position 1"
                       | Raise _ => None
                       end)) in H.
  vm_compute in H. discriminate H.
Qed.

Lemma bulk_continues_after_error_witness :
  ∃ (out1 out2 out3 : Row) message,
    (bulk_upload except_widget_b None three_widgets []).1
    = Ok (Report [out1; out2; out3])
    ∧ out1 !! "Product Title" = Some (VStr "Widget A")
    ∧ out1 !! "Search Status" = Some (VStr "Success")
    ∧ out2 !! "Product Title" = Some (VStr "Widget B")
    ∧ out2 !! "Search Status" = Some (VStr "Error")
    ∧ out2 !! "Error Message" = Some (VStr message)
    ∧ contains message "503"
    ∧ out3 !! "Product Title" = Some (VStr "Widget C")
    ∧ out3 !! "Search Status" = Some (VStr "Success").
Proof.
  destruct (bulk_continues_after_error except_widget_b None three_widgets
              widget_a widget_b widget_c
              [] (listing 200 "shopping" [1]) unavailable
              (listing 200 "shopping" [1]) [ranked 1] [ranked 1])
    as (out1 & out2 & out3 & message & Hrun & H1 & H2 & H3 & H4 & H5 & H6
        & H7 & H8).
  - repeat constructor.
  - reflexivity.
  - vm_compute. discriminate.
  - vm_compute. discriminate.
  - vm_compute. discriminate.
  - reflexivity.
  - split; [reflexivity|]. eexists. split; reflexivity.
  - reflexivity.
  - discriminate.
  - reflexivity.
  - split; [reflexivity|]. eexists. split; reflexivity.
  - exists out1, out2, out3, message. rewrite Hrun.
    split_and!; [reflexivity|exact H1|exact H2|exact H3|exact H4|exact H5
                |exact H6|exact H7|exact H8].
Defined.


(** The end-to-end example with a title of white space: that row is
    absent, "GB" is sent as "gb", and the row without a country is queried
    with "us". *)
Example bulk_end_to_end :
  let run := bulk_upload (always (listing 200 "shopping" [1])) None
               widgets_with_blank [] in
  sent_query <$> run.2 = [Some "Widget A"; Some "Widget B"]
  ∧ sent_locale <$> run.2 = [Some "gb"; Some "us"]
  ∧ ∃ out1 out2 : Row,
      run.1 = Ok (Report [out1; out2])
      ∧ out1 !! "Product Title" = Some (VStr "Widget A")
      ∧ out2 !! "Product Title" = Some (VStr "Widget B").
Proof.
  split_and!; [reflexivity..|].
  eexists _, _. split_and!; reflexivity.
Qed.

(** C5: a row whose title field is empty in the uploaded file is not
    skipped.  [pd.read_csv] reads the field as NaN, whose text is "nan":
    whatever the provider answers, the loop sends one request for the
    row, with the query "nan".  On the table of the end-to-end example,
    read from a file, the run queries "Widget A", "nan" and "Widget B"
    and reports three rows, the second for the title "nan"; the same
    table with a title of white space in the second row gives the two
    rows of the example. *)
Theorem bulk_queries_empty_title :
  (∀ server SERPER_API_KEY country w,
     ∃ req,
       (bulk_row server SERPER_API_KEY two_columns
          {[ "Product Title" := CNaN; "Country" := CStr country ]} w).2
       = w ++ [req]
       ∧ sent_query req = Some "nan")
  ∧ (let run := bulk_upload (always (listing 200 "shopping" [1])) None
                  widgets_with_empty_title [] in
     sent_query <$> run.2 = [Some "Widget A"; Some "nan"; Some "Widget B"]
     ∧ sent_locale <$> run.2 = [Some "gb"; Some "us"; Some "us"]
     ∧ ∃ out1 out2 out3 : Row,
         run.1 = Ok (Report [out1; out2; out3])
         ∧ out1 !! "Product Title" = Some (VStr "Widget A")
         ∧ out2 !! "Product Title" = Some (VStr "nan")
         ∧ out2 !! "Search Status" = Some (VStr "Success")
         ∧ out3 !! "Product Title" = Some (VStr "Widget B"))
  ∧ (let run := bulk_upload (always (listing 200 "shopping" [1])) None
                  widgets_with_blank [] in
     sent_query <$> run.2 = [Some "Widget A"; Some "Widget B"]
     ∧ ∃ out1 out2 : Row, run.1 = Ok (Report [out1; out2])).
Proof.
  split_and!.
  - intros server key country w.
    pose (row := ({[ "Product Title" := CNaN; "Country" := CStr country ]}
                  : gmap string cell)).
    assert (query_text row = "nan") as Hq by reflexivity.
    exists (row_request key row). split.
    + fold row.
      rewrite (bulk_row_queried server key two_columns row w);
        [done|repeat constructor..|by rewrite Hq].
    + unfold row_request, serper_request, sent_query. cbn. by rewrite Hq.
  - split_and!; [reflexivity..|].
    eexists _, _, _. split_and!; reflexivity.
  - split; [reflexivity|]. eexists _, _. reflexivity.
Qed.

(** A table of one row with an empty title field: the row is queried. *)
Example missing_title_is_queried :
  sent_query <$> (bulk_upload (always (listing 200 "shopping" [1])) None
                    missing_title []).2
  = [Some "nan"].
Proof. reflexivity. Qed.

(** * Further properties of the code *)

(** ** Strings *)

Lemma append_cons c (a b : string) : String c a +:+ b = String c (a +:+ b).
Proof. reflexivity. Qed.

Lemma rev_app_append (a b : string) :
  String.rev_app a b = String.rev a +:+ b.
Proof.
  unfold String.rev. revert b. induction a as [|c a IH]; intros b; [done|].
  simpl. rewrite (IH (String c "")), IH, append_assoc. done.
Qed.

Lemma rev_append (a b : string) :
  String.rev (a +:+ b) = String.rev b +:+ String.rev a.
Proof.
  induction a as [|c a IH].
  { by rewrite append_nil_r. }
  rewrite append_cons. unfold String.rev at 1 3. simpl.
  rewrite !rev_app_append, IH, append_assoc. done.
Qed.

Lemma rev_rev (a : string) : String.rev (String.rev a) = a.
Proof.
  induction a as [|c a IH]; [done|].
  unfold String.rev at 2. simpl. rewrite rev_app_append, rev_append, IH.
  done.
Qed.

Lemma length_append (a b : string) :
  String.length (a +:+ b) = String.length a + String.length b.
Proof.
  induction a as [|c a IH]; [done|]. rewrite append_cons. simpl. by rewrite IH.
Qed.

Lemma length_rev (a : string) : String.length (String.rev a) = String.length a.
Proof.
  induction a as [|c a IH]; [done|].
  unfold String.rev. simpl. rewrite rev_app_append, length_append, IH.
  simpl. lia.
Qed.

Lemma rev_empty (a : string) : String.rev a = "" → a = "".
Proof. intros H. apply (f_equal String.rev) in H. by rewrite rev_rev in H. Qed.

Lemma strip_prefix_spec (p s rest : string) :
  strip_prefix p s = Some rest ↔ s = p +:+ rest.
Proof.
  revert s. induction p as [|a p IH]; intros s; simpl.
  { split; [by intros [= ->]|by intros ->]. }
  destruct s as [|b s]; [done|]. rewrite append_cons.
  destruct (decide (a = b)) as [->|Hab].
  - rewrite IH. split; [by intros ->|by intros [= ->]].
  - split; [done|]. by intros [= <- _].
Qed.

Lemma drop_one_Some table (s rest : string) :
  drop_one table s = Some rest → ∃ c, c ∈ table ∧ s = c +:+ rest.
Proof.
  unfold drop_one. induction table as [|c table IH]; [done|]. simpl.
  destruct (strip_prefix c s) as [r|] eqn:Hc; simpl.
  - intros [= ->]. exists c. split; [left|by apply strip_prefix_spec].
  - intros (c' & Hin & Hs)%IH. exists c'. split; [by right|done].
Qed.

Lemma drop_one_None table (s : string) :
  drop_one table s = None →
  ∀ c rest, c ∈ table → s ≠ c +:+ rest.
Proof.
  unfold drop_one. induction table as [|c table IH]; intros Hnone c' rest Hin.
  { by apply elem_of_nil in Hin. }
  simpl in Hnone. destruct (strip_prefix c s) as [r|] eqn:Hc; [done|].
  apply elem_of_cons in Hin as [->|Hin]; [|by apply IH].
  intros Hs%strip_prefix_spec. congruence.
Qed.

Lemma nonempty_entries_spec table c :
  nonempty_entries table = true → c ∈ table → 0 < String.length c.
Proof.
  unfold nonempty_entries. rewrite forallb_forall. intros Hall Hin.
  apply list_elem_of_In, Hall in Hin. destruct c; [done|simpl; lia].
Qed.

(** Two characters of a table without prefixes that start the same string
    are the same character. *)
Lemma prefix_free_spec table (c1 c2 r1 r2 : string) :
  prefix_free table = true → c1 ∈ table → c2 ∈ table →
  c1 +:+ r1 = c2 +:+ r2 → c1 = c2 ∧ r1 = r2.
Proof.
  unfold prefix_free. rewrite forallb_forall. intros Hfree Hin1 Hin2 Heq.
  assert (∀ (a b x y : string), a +:+ x = b +:+ y →
            is_Some (strip_prefix a b) ∨ is_Some (strip_prefix b a)) as Hcommon.
  { clear. induction a as [|p a IH]; intros [|q b] x y H; simpl; eauto.
    rewrite !append_cons in H. injection H as -> H.
    rewrite !decide_True by done. eauto. }
  assert (c1 = c2) as ->; [|by apply (inj (String.app c2)) in Heq].
  destruct (Hcommon _ _ _ _ Heq) as [Hp|Hp].
  - apply list_elem_of_In, Hfree in Hin1. rewrite forallb_forall in Hin1.
    apply list_elem_of_In, Hin1 in Hin2.
    apply orb_prop in Hin2 as [?%bool_decide_eq_true|Hn]; [done|].
    apply negb_true_iff, bool_decide_eq_false in Hn. done.
  - apply list_elem_of_In, Hfree in Hin2. rewrite forallb_forall in Hin2.
    apply list_elem_of_In, Hin2 in Hin1.
    apply orb_prop in Hin1 as [?%bool_decide_eq_true|Hn]; [done|].
    apply negb_true_iff, bool_decide_eq_false in Hn. done.
Qed.

Lemma spaces_one table c : c ∈ table → spaces_of table c.
Proof.
  intros Hin. rewrite <- (append_nil_r c). by repeat constructor.
Qed.

Lemma spaces_append table (a b : string) :
  spaces_of table a → spaces_of table b → spaces_of table (a +:+ b).
Proof.
  intros Ha Hb. induction Ha as [|c a Hin Ha IH]; [done|].
  rewrite append_assoc. by constructor.
Qed.

Lemma spaces_rev table (a : string) :
  spaces_of (String.rev <$> table) a → spaces_of table (String.rev a).
Proof.
  intros Ha. induction Ha as [|c a Hin Ha IH]; [constructor|].
  apply list_elem_of_fmap in Hin as (c' & -> & Hin).
  rewrite rev_append, rev_rev. by apply spaces_append, spaces_one.
Qed.

Lemma drop_one_empty table :
  nonempty_entries table = true → drop_one table "" = None.
Proof.
  intros Hne. destruct (drop_one table "") as [rest|] eqn:Hdrop; [|done].
  apply drop_one_Some in Hdrop as (c & Hin & Hs).
  apply (nonempty_entries_spec _ _ Hne) in Hin.
  destruct c; [simpl in Hin; lia|by rewrite append_cons in Hs].
Qed.

(** What is dropped from the front is made of characters of the table. *)
Lemma lstrip_with_split table fuel (s : string) :
  ∃ before, s = before +:+ lstrip_with table fuel s
            ∧ spaces_of table before.
Proof.
  revert s. induction fuel as [|fuel IH]; intros s; simpl.
  { exists "". split; [done|constructor]. }
  destruct (drop_one table s) as [rest|] eqn:Hdrop.
  - apply drop_one_Some in Hdrop as (c & Hin & ->).
    destruct (IH rest) as (before & Hrest & Hsp).
    exists (c +:+ before). split; [|by constructor].
    by rewrite append_assoc, <- Hrest.
  - exists "". split; [done|constructor].
Qed.

(** With enough fuel, what is left does not start with a character of the
    table. *)
Lemma lstrip_with_stuck table fuel (s : string) :
  nonempty_entries table = true →
  String.length s ≤ fuel →
  drop_one table (lstrip_with table fuel s) = None.
Proof.
  intros Hne. revert s. induction fuel as [|fuel IH]; intros s Hlen; simpl.
  - destruct s; [|simpl in Hlen; lia]. by apply drop_one_empty.
  - destruct (drop_one table s) as [rest|] eqn:Hdrop; [|done].
    apply IH. apply drop_one_Some in Hdrop as (c & Hin & ->).
    apply (nonempty_entries_spec _ _ Hne) in Hin.
    rewrite length_append in Hlen. lia.
Qed.

(** A string made of characters of the table is dropped whole. *)
Lemma lstrip_with_spaces table fuel (s : string) :
  nonempty_entries table = true → prefix_free table = true →
  spaces_of table s → String.length s ≤ fuel →
  lstrip_with table fuel s = "".
Proof.
  intros Hne Hfree Hs. revert fuel.
  induction Hs as [|c s Hin Hs IH]; intros fuel Hlen.
  { destruct fuel; [done|]. simpl. by rewrite drop_one_empty. }
  pose proof (nonempty_entries_spec _ _ Hne Hin) as Hc.
  rewrite length_append in Hlen.
  destruct fuel as [|fuel]; [lia|]. simpl.
  destruct (drop_one table (c +:+ s)) as [rest|] eqn:Hdrop.
  - apply drop_one_Some in Hdrop as (c' & Hin' & Heq).
    destruct (prefix_free_spec _ _ _ _ _ Hfree Hin Hin' Heq) as [_ <-].
    apply IH. lia.
  - by destruct (drop_one_None _ _ Hdrop c s Hin).
Qed.

Lemma whitespace_tables :
  nonempty_entries whitespace = true
  ∧ prefix_free whitespace = true
  ∧ nonempty_entries (String.rev <$> whitespace) = true
  ∧ prefix_free (String.rev <$> whitespace) = true.
Proof. by vm_compute. Qed.

Lemma lstrip_split (s : string) :
  ∃ before, s = before +:+ lstrip s ∧ spaces_of whitespace before.
Proof. apply lstrip_with_split. Qed.

Lemma lstrip_no_space (s : string) c rest :
  c ∈ whitespace → lstrip s ≠ c +:+ rest.
Proof.
  intros Hin. eapply drop_one_None; [|done].
  apply lstrip_with_stuck; [apply whitespace_tables|done].
Qed.

Lemma rstrip_split (s : string) :
  ∃ after, s = rstrip s +:+ after ∧ spaces_of whitespace after.
Proof.
  destruct (lstrip_with_split (String.rev <$> whitespace) (String.length s)
              (String.rev s)) as (before & Hs & Hsp).
  exists (String.rev before). split; [|by apply spaces_rev].
  unfold rstrip. by rewrite <- rev_append, <- Hs, rev_rev.
Qed.

Lemma rstrip_no_space (s : string) c rest :
  c ∈ whitespace → rstrip s ≠ rest +:+ c.
Proof.
  intros Hin Hs. unfold rstrip in Hs.
  apply (f_equal String.rev) in Hs. rewrite rev_rev, rev_append in Hs.
  revert Hs. eapply drop_one_None.
  - apply lstrip_with_stuck; [apply whitespace_tables|].
    by rewrite length_rev.
  - apply list_elem_of_fmap. eauto.
Qed.

Lemma strip_split (s : string) :
  ∃ before after,
    s = before +:+ strip s +:+ after
    ∧ spaces_of whitespace before ∧ spaces_of whitespace after.
Proof.
  destruct (lstrip_split s) as (before & Hs & Hb).
  destruct (rstrip_split (lstrip s)) as (after & Ht & Ha).
  exists before, after. unfold strip. by rewrite <- Ht.
Qed.

Lemma strip_no_space (s : string) c rest :
  c ∈ whitespace → strip s ≠ c +:+ rest ∧ strip s ≠ rest +:+ c.
Proof.
  intros Hin. split; [|by apply rstrip_no_space].
  intros Hs. destruct (rstrip_split (lstrip s)) as (after & Ht & _).
  fold (strip s) in Ht. rewrite Hs, append_assoc in Ht.
  by apply lstrip_no_space in Ht.
Qed.

Lemma strip_empty_iff (s : string) : strip s = "" ↔ spaces_of whitespace s.
Proof.
  split.
  - intros Hs. destruct (strip_split s) as (before & after & -> & Hb & Ha).
    rewrite Hs. by apply spaces_append.
  - intros Hs. unfold strip, lstrip.
    rewrite lstrip_with_spaces; [done|apply whitespace_tables..|done|done].
Qed.

Lemma lower_char_lower_char c : lower_char (lower_char c) = lower_char c.
Proof. by destruct c as [[] [] [] [] [] [] [] []]. Qed.

Lemma lower_lower (s : string) : lower (lower s) = lower s.
Proof.
  induction s as [|c s IH]; [done|].
  simpl. by rewrite lower_char_lower_char, IH.
Qed.

(** ** The search clients, further *)

Section SearchClientEdges.

Variable server : world → request → result Response.
Variable SERPER_API_KEY : option string.

Lemma google_sends_one query api_key cx w :
  (google_custom_search server query api_key cx w).2
  = w ++ [google_request query api_key cx].
Proof.
  unfold google_custom_search, bind, send.
  destruct (server w _) as [resp|e]; [|done].
  destruct (negb _); [done|].
  unfold lift, response_json.
  by destruct (json resp) as [data|].
Qed.

(** X1: a call of either client sends exactly one request, whatever the
    provider answers (there is no retry): the GET with the key, the engine
    id and the query for the web search, the POST with the key header, the
    query as given and the lower-cased country for the shopping search. *)
Theorem clients_send_one_request query api_key cx country w :
  (google_custom_search server query api_key cx w).2
  = w ++ [GET "https://www.googleapis.com/customsearch/v1"
              [("key", api_key); ("cx", cx); ("q", query)]]
  ∧ (search_serper_shopping server SERPER_API_KEY query country w).2
    = w ++ [POST "https://google.serper.dev/shopping"
                 [("X-API-KEY", SERPER_API_KEY);
                  ("Content-Type", Some "application/json")]
                 [("q", VStr query); ("gl", VStr (lower country))]].
Proof.
  split; [apply google_sends_one|apply search_sends_one].
Qed.

(** X2: on status 200 the shopping client returns a prefix of the
    provider's list, of length min(41, n): a list of at most 41 items comes
    back whole, and the order is the provider's. *)
Theorem serper_results_prefix query country w resp d items :
  server w (serper_request SERPER_API_KEY query country) = Ok resp →
  status_code resp = 200%Z →
  json resp = Some (VDict d) →
  assoc "shopping" d = Some (VList items) →
  ∃ found,
    (search_serper_shopping server SERPER_API_KEY query country w).1
    = Ok {| error := VNone; results := VList found |}
    ∧ found `prefix_of` items
    ∧ length found = length items `min` 41
    ∧ (length items ≤ 41 → found = items).
Proof.
  intros Hresp Hcode Hjson Hshop. exists (take 41 items).
  rewrite (search_200 _ _ _ _ _ _ _ Hresp Hcode Hjson).
  unfold dict_get. rewrite Hshop. simpl. split_and!.
  - done.
  - apply prefix_take.
  - rewrite length_take. lia.
  - intros Hlen. by apply take_ge.
Qed.

(** X3: a status-200 JSON object without a "shopping" key is a success
    with no results, and its row in the report has the title and the
    status "Success" and nothing else. *)
Theorem serper_missing_shopping_is_empty query country w resp d :
  server w (serper_request SERPER_API_KEY query country) = Ok resp →
  status_code resp = 200%Z →
  json resp = Some (VDict d) →
  assoc "shopping" d = None →
  ∃ o,
    (search_serper_shopping server SERPER_API_KEY query country w).1 = Ok o
    ∧ error o = VNone ∧ results o = VList []
    ∧ format_results_for_csv query (results o) (error o)
      = Ok (<["Search Status" := VStr "Success"]>
              (<["Product Title" := VStr query]> ∅)).
Proof.
  intros Hresp Hcode Hjson Hshop.
  rewrite (search_200 _ _ _ _ _ _ _ Hresp Hcode Hjson).
  unfold dict_get. rewrite Hshop. simpl. by eexists.
Qed.

(** X4: the shopping client turns only a status other than 200 into an
    error outcome.  A failed connection, a status-200 body that is not
    JSON, a JSON value that is not an object, and a "shopping" entry that
    is neither a list nor a string each raise, after the request was
    sent. *)
Theorem serper_exceptions_propagate query country w :
  (∀ e, server w (serper_request SERPER_API_KEY query country) = Raise e →
     search_serper_shopping server SERPER_API_KEY query country w
     = (Raise e, w ++ [serper_request SERPER_API_KEY query country]))
  ∧ (∀ resp,
       server w (serper_request SERPER_API_KEY query country) = Ok resp →
       status_code resp = 200%Z →
       (json resp = None →
        search_serper_shopping server SERPER_API_KEY query country w
        = (Raise JSONDecodeError,
           w ++ [serper_request SERPER_API_KEY query country]))
       ∧ (∀ v, json resp = Some v → (∀ d, v ≠ VDict d) →
            search_serper_shopping server SERPER_API_KEY query country w
            = (Raise AttributeError,
               w ++ [serper_request SERPER_API_KEY query country]))
       ∧ (∀ d x, json resp = Some (VDict d) →
            assoc "shopping" d = Some x →
            (∀ l, x ≠ VList l) → (∀ s, x ≠ VStr s) →
            search_serper_shopping server SERPER_API_KEY query country w
            = (Raise TypeError,
               w ++ [serper_request SERPER_API_KEY query country]))).
Proof.
  split.
  { intros e He. unfold search_serper_shopping, bind, send. by rewrite He. }
  intros resp Hresp Hcode. split_and!.
  - intros Hjson. unfold search_serper_shopping, bind, send.
    rewrite Hresp, Hcode. simpl. unfold lift, response_json.
    by rewrite Hjson.
  - intros v Hjson Hv. unfold search_serper_shopping, bind, send.
    rewrite Hresp, Hcode. simpl. unfold lift, response_json.
    rewrite Hjson. destruct v; try done. by destruct (Hv d).
  - intros d x Hjson Hshop Hl Hs.
    rewrite (search_200 _ _ _ _ _ _ _ Hresp Hcode Hjson).
    unfold dict_get. rewrite Hshop. simpl.
    destruct x; try done; [by destruct (Hs s)|by destruct (Hl l)].
Qed.

(** X5: the web-search client on status 200: a JSON object without an
    "items" key gives the empty list; a body that is not JSON and a JSON
    value that is not an object raise; a failed connection raises. *)
Theorem google_edge_cases query api_key cx w :
  (∀ e, server w (google_request query api_key cx) = Raise e →
     (google_custom_search server query api_key cx w).1 = Raise e)
  ∧ (∀ resp,
       server w (google_request query api_key cx) = Ok resp →
       status_code resp = 200%Z →
       (json resp = None →
        (google_custom_search server query api_key cx w).1
        = Raise JSONDecodeError)
       ∧ (∀ v, json resp = Some v → (∀ d, v ≠ VDict d) →
            (google_custom_search server query api_key cx w).1
            = Raise AttributeError)
       ∧ (∀ d, json resp = Some (VDict d) → assoc "items" d = None →
            (google_custom_search server query api_key cx w).1
            = Ok (VList []))).
Proof.
  split.
  { intros e He. unfold google_custom_search, bind, send. by rewrite He. }
  intros resp Hresp Hcode.
  unfold google_custom_search, bind, send. rewrite Hresp, Hcode. simpl.
  unfold lift, response_json. split_and!.
  - by intros ->.
  - intros v -> Hv. destruct v; try done. by destruct (Hv d).
  - intros d -> Hitems. simpl. unfold dict_get. by rewrite Hitems.
Qed.

(** X6: the country code is case-insensitive: a call with the lower-cased
    code sends the same request and returns the same result. *)
Theorem serper_country_case_insensitive query country w :
  search_serper_shopping server SERPER_API_KEY query (lower country) w
  = search_serper_shopping server SERPER_API_KEY query country w.
Proof.
  unfold search_serper_shopping, serper_request. by rewrite lower_lower.
Qed.

End SearchClientEdges.

(** ** The row formatter, further *)

Lemma format_loop_raise i items row ex :
  format_loop i items row = Raise ex → ex = AttributeError.
Proof.
  revert i row. induction items as [|r items IH]; intros i row; [done|].
  simpl. destruct r as [| | | | | |d]; try (by intros [= <-]).
  rewrite format_result_dict. simpl. apply IH.
Qed.

(** X7: the formatter returns a row exactly when the error is truthy or
    the results can be iterated and every item is a record; otherwise it
    raises: TypeError when the results cannot be iterated, AttributeError
    at the first item that is not a record. *)
Theorem format_results_returns_iff product_title results error :
  ((∃ row, format_results_for_csv product_title results error = Ok row)
   ↔ truthy error = true ∨ ∃ ds, py_iter results = Ok (VDict <$> ds))
  ∧ (∀ ex, format_results_for_csv product_title results error = Raise ex →
       truthy error = false
       ∧ ((ex = TypeError ∧ py_iter results = Raise TypeError)
          ∨ (ex = AttributeError
             ∧ ∃ items, py_iter results = Ok items
                        ∧ ∀ ds, items ≠ VDict <$> ds))).
Proof.
  unfold format_results_for_csv.
  destruct (truthy error) eqn:Herr.
  { split; [|done]. split; eauto. }
  destruct (py_iter results) as [items|e] eqn:Hiter; simpl.
  - split.
    + split.
      * intros [row [ds ->]%format_loop_ok_dicts]. right. eauto.
      * intros [?|(ds & [= ->])]; [done|]. rewrite format_loop_dicts. eauto.
    + intros ex Hex. split; [done|]. right.
      rewrite (format_loop_raise _ _ _ _ Hex). split; [done|].
      exists items. split; [done|]. intros ds ->.
      by rewrite format_loop_dicts in Hex.
  - split.
    + split; [by intros [row ?]|]. by intros [?|(ds & ?)].
    + intros ex [= <-]. split; [done|]. left.
      destruct results; simplify_eq/=; done.
Qed.

Lemma format_error_row product_title results error row :
  truthy error = true →
  format_results_for_csv product_title results error = Ok row →
  row !! "Search Status" = Some (VStr "Error")
  ∧ row !! "Error Message" = Some error
  ∧ size row = 3.
Proof.
  unfold format_results_for_csv. intros -> [= <-].
  split_and!; first [done|by rewrite !map_size_insert_None].
Qed.

Lemma format_success_row product_title results error row :
  truthy error = false →
  format_results_for_csv product_title results error = Ok row →
  row !! "Search Status" = Some (VStr "Success")
  ∧ row !! "Error Message" = None.
Proof.
  intros Herr Hrun. destruct (format_keeps_title _ _ _ _ Hrun) as [_ Hs].
  rewrite Herr in Hs. split; [done|].
  unfold format_results_for_csv in Hrun. rewrite Herr in Hrun.
  destruct (py_iter results) as [items|] eqn:Hiter; [|done]. simpl in Hrun.
  destruct (format_loop_ok_dicts _ _ _ _ Hrun) as [ds ->].
  rewrite format_loop_dicts in Hrun. injection Hrun as <-.
  rewrite lookup_cells_from_miss; [done|].
  intros f j _ H. by destruct (indexed_not_fixed f (1 + j)) as (_ & _ & ?).
Qed.

(** X8: a row that the formatter returns always holds the query text under
    "Product Title" and is of one of two shapes: status "Error" with the
    error under "Error Message" and no other field, or status "Success"
    without an "Error Message". *)
Theorem format_row_invariant product_title results error row :
  format_results_for_csv product_title results error = Ok row →
  row !! "Product Title" = Some (VStr product_title)
  ∧ ((truthy error = true
      ∧ row !! "Search Status" = Some (VStr "Error")
      ∧ row !! "Error Message" = Some error
      ∧ size row = 3)
     ∨ (truthy error = false
        ∧ row !! "Search Status" = Some (VStr "Success")
        ∧ row !! "Error Message" = None)).
Proof.
  intros Hrun. destruct (format_keeps_title _ _ _ _ Hrun) as [Ht _].
  split; [done|]. destruct (truthy error) eqn:Herr.
  - left. split; [done|]. by eapply format_error_row.
  - right. split; [done|]. by eapply format_success_row.
Qed.

(** ** The bulk runner, further *)

Lemma length_chars (s : string) : length (chars s) = String.length s.
Proof. induction s as [|c s IH]; [done|]. simpl. by rewrite IH. Qed.

Lemma length_take_chars n (s : string) : String.length (take_chars n s) ≤ n.
Proof.
  revert s. induction n as [|n IH]; intros [|c s]; simpl; try lia.
  specialize (IH s). lia.
Qed.

Lemma py_iter_slice_length n x y items :
  py_slice_to n x = Ok y → py_iter y = Ok items → length items ≤ n.
Proof.
  destruct x; try done; simpl; intros [= <-] [= <-].
  - rewrite length_chars. apply length_take_chars.
  - rewrite length_take. lia.
Qed.

Lemma size_format_success product_title results error row :
  format_results_for_csv product_title results error = Ok row →
  truthy error = false →
  ∃ ds, py_iter results = Ok (VDict <$> ds) ∧ size row = 2 + 9 * length ds.
Proof.
  unfold format_results_for_csv. intros Hrun Herr. rewrite Herr in Hrun.
  destruct (py_iter results) as [items|] eqn:Hiter; [|done]. simpl in Hrun.
  destruct (format_loop_ok_dicts _ _ _ _ Hrun) as [ds ->].
  rewrite format_loop_dicts in Hrun. injection Hrun as <-.
  exists ds. split; [done|].
  rewrite size_cells_from, size_header; [lia|].
  intros f j _. apply lookup_header_indexed.
Qed.

Section BulkRunnerEdges.

Variable server : world → request → result Response.
Variable SERPER_API_KEY : option string.

Local Abbreviation search := (search_serper_shopping server SERPER_API_KEY).
Local Abbreviation run_row := (bulk_row server SERPER_API_KEY).
Local Abbreviation run_loop := (bulk_loop server SERPER_API_KEY).
Local Abbreviation run := (bulk_upload server SERPER_API_KEY).
Local Abbreviation request_of := (row_request SERPER_API_KEY).

(** An outcome of the client is an error with no results, or has a null
    error and results cut by the slice. *)
Lemma search_outcome_shape query country w o :
  (search query country w).1 = Ok o →
  (truthy (error o) = true ∧ results o = VList [])
  ∨ (error o = VNone ∧ ∃ x, py_slice_to 41 x = Ok (results o)).
Proof.
  unfold search_serper_shopping, bind, send.
  destruct (server w _) as [resp|e]; [|done].
  destruct (negb _).
  { intros [= <-]. left. split; [apply truthy_serper_error|done]. }
  unfold lift, response_json.
  destruct (json resp) as [data|]; [|done]. simpl.
  destruct (py_get data _ _) as [sh|]; [|done]. simpl.
  destruct (py_slice_to 41 sh) as [found|] eqn:Hslice; [|done]. simpl.
  intros [= <-]. right. eauto.
Qed.

(** A row that a round of the loop gathers is the formatter's row for the
    outcome of one call of the client. *)
Lemma bulk_row_formatted cols row w formatted_row w1 :
  run_row cols row w = (Ok (Some formatted_row), w1) →
  ∃ query country o,
    (search query country w).1 = Ok o
    ∧ (if truthy (error o) then
         format_results_for_csv query (VList []) (error o)
       else format_results_for_csv query (results o) VNone)
      = Ok formatted_row.
Proof.
  unfold bulk_row, loc.
  destruct (bool_decide ("Product Title" ∈ cols)); [|done].
  destruct (bool_decide ("Country" ∈ cols)); [|done].
  unfold bind at 1, lift at 1. unfold bind at 1, lift at 1.
  destruct (negb _); [done|]. unfold bind at 1.
  destruct (search _ _ w) as [[o|e] w2] eqn:Hsearch; [|done].
  unfold bind, lift, ret.
  destruct (if truthy (error o) then _ else _) as [fr|] eqn:Hf; [|done].
  intros [= <- <-]. eexists _, _, o. by rewrite Hsearch.
Qed.

Lemma bulk_loop_forall (P : Row → Prop) cols todo all_rows w out w' :
  (∀ row w0 formatted_row w1,
     run_row cols row w0 = (Ok (Some formatted_row), w1) → P formatted_row) →
  Forall P all_rows →
  run_loop cols todo all_rows w = (Ok out, w') →
  Forall P out.
Proof.
  intros Hrow. revert all_rows w.
  induction todo as [|row todo IH]; intros all_rows w Hacc Hrun.
  { by injection Hrun as <- <-. }
  rewrite bulk_loop_cons in Hrun.
  destruct (run_row cols row w) as [[[fr|]|e] w1] eqn:Hr; [| |done].
  - eapply IH; [|exact Hrun]. apply Forall_app. split; [done|].
    constructor; [|done]. by eapply Hrow.
  - by eapply IH.
Qed.

Lemma bulk_loop_append cols todo1 todo2 all_rows w :
  run_loop cols (todo1 ++ todo2) all_rows w =
    match run_loop cols todo1 all_rows w with
    | (Ok gathered, w1) => run_loop cols todo2 gathered w1
    | (Raise e, w1) => (Raise e, w1)
    end.
Proof.
  revert all_rows w. induction todo1 as [|row todo1 IH]; intros all_rows w.
  { done. }
  rewrite <- app_comm_cons, !bulk_loop_cons.
  destruct (run_row cols row w) as [[formatted|e] w1]; [|done]. apply IH.
Qed.

(** The rows gathered before a loop starts are carried along untouched. *)
Lemma bulk_loop_carry cols todo all_rows w :
  run_loop cols todo all_rows w =
    match run_loop cols todo [] w with
    | (Ok out, w') => (Ok (all_rows ++ out), w')
    | (Raise e, w') => (Raise e, w')
    end.
Proof.
  revert all_rows w. induction todo as [|row todo IH]; intros all_rows w.
  { simpl. unfold ret. by rewrite app_nil_r. }
  rewrite !bulk_loop_cons.
  destruct (run_row cols row w) as [[[fr|]|e] w1]; [| |done].
  - rewrite (IH (all_rows ++ [fr])), (IH ([] ++ [fr])).
    destruct (run_loop cols todo [] w1) as [[out|e] w2]; [|done].
    by rewrite <- app_assoc.
  - apply IH.
Qed.

Lemma columns_default_country_rows cols todo1 todo2 :
  columns (default_country {| columns := cols; rows := todo1 |})
  = columns (default_country {| columns := cols; rows := todo2 |}).
Proof.
  unfold default_country. cbn [columns].
  by destruct (bool_decide ("Country" ∉ cols)).
Qed.

Lemma bulk_upload_loop df w :
  "Product Title" ∈ columns df →
  run df w =
    match run_loop (columns (default_country df))
            (country_filled (columns df) <$> rows df) [] w with
    | (Ok out, w') => (Ok (Report out), w')
    | (Raise e, w') => (Raise e, w')
    end.
Proof.
  intros Ht. unfold bulk_upload.
  rewrite bool_decide_eq_false_2 by (intros H; by apply H).
  cbv zeta. unfold bind. rewrite rows_default_country.
  by destruct (run_loop _ _ [] w) as [[out|e] w'].
Qed.

Lemma bulk_upload_report_has_title df w out w' :
  run df w = (Ok (Report out), w') → "Product Title" ∈ columns df.
Proof.
  unfold bulk_upload.
  destruct (bool_decide ("Product Title" ∉ columns df)) eqn:Ht; [done|].
  intros _. apply bool_decide_eq_false in Ht. by apply dec_stable in Ht.
Qed.

(** X9: reports of tables put end to end: when the run over the first
    rows comes to its end, the run over all the rows is the run over the
    remaining rows started from the requests already sent, with the first
    report in front. *)
Theorem bulk_upload_append cols rows1 rows2 w out1 w1 :
  bulk_upload server SERPER_API_KEY {| columns := cols; rows := rows1 |} w
  = (Ok (Report out1), w1) →
  bulk_upload server SERPER_API_KEY
    {| columns := cols; rows := rows1 ++ rows2 |} w
  = match bulk_upload server SERPER_API_KEY
            {| columns := cols; rows := rows2 |} w1 with
    | (Ok (Report out2), w2) => (Ok (Report (out1 ++ out2)), w2)
    | other => other
    end.
Proof.
  intros Hrun1.
  pose proof (bulk_upload_report_has_title _ _ _ _ Hrun1) as Ht.
  rewrite bulk_upload_loop in Hrun1 by done.
  rewrite !bulk_upload_loop by done. cbn [columns rows] in *.
  rewrite (columns_default_country_rows cols (rows1 ++ rows2) rows1),
    (columns_default_country_rows cols rows2 rows1).
  rewrite fmap_app, bulk_loop_append.
  destruct (run_loop _ (_ <$> rows1) [] w) as [[out|e] w'] eqn:H1; [|done].
  injection Hrun1 as -> ->. rewrite bulk_loop_carry.
  by destruct (run_loop _ _ [] w1) as [[out2|e] w2].
Qed.

(** X10: an exception at one row ends the run.  When the rows before it
    were gathered and the call for a non-blank row raises, the run raises
    that exception: there is no report, the rows gathered so far are lost,
    and no request is sent for the rows after it. *)
Theorem bulk_upload_aborts_on_exception cols before row after w out w1 e :
  bulk_upload server SERPER_API_KEY {| columns := cols; rows := before |} w
  = (Ok (Report out), w1) →
  query_text row ≠ "" →
  (search_serper_shopping server SERPER_API_KEY (query_text row)
     (country_code (country_filled cols row)) w1).1 = Raise e →
  bulk_upload server SERPER_API_KEY
    {| columns := cols; rows := before ++ row :: after |} w
  = (Raise e,
     w1 ++ [row_request SERPER_API_KEY (country_filled cols row)]).
Proof.
  intros Hrun1 Hq Hraise.
  pose proof (bulk_upload_report_has_title _ _ _ _ Hrun1) as Ht.
  rewrite bulk_upload_loop in Hrun1 by done.
  rewrite bulk_upload_loop by done. cbn [columns rows] in *.
  rewrite (columns_default_country_rows cols (before ++ row :: after) before).
  destruct (columns_default_country {| columns := cols; rows := before |})
    as [Hc Ht']. specialize (Ht' Ht).
  rewrite fmap_app, bulk_loop_append.
  destruct (run_loop _ (_ <$> before) [] w) as [[out'|e'] w'] eqn:H1; [|done].
  injection Hrun1 as -> ->.
  rewrite fmap_cons, bulk_loop_cons, bulk_row_queried;
    [|done|done|by rewrite query_text_country_filled].
  rewrite query_text_country_filled, Hraise. done.
Qed.

(** X11: every row of a finished report has at most 2 + 9 * 41 = 371
    fields, has its status "Success" or "Error", and has an "Error Message"
    exactly when the status is "Error". *)
Theorem bulk_report_rows_bounded df w all_rows w' :
  bulk_upload server SERPER_API_KEY df w = (Ok (Report all_rows), w') →
  Forall (λ row : Row,
            size row ≤ 371
            ∧ (row !! "Search Status" = Some (VStr "Success")
               ∨ row !! "Search Status" = Some (VStr "Error"))
            ∧ (is_Some (row !! "Error Message")
               ↔ row !! "Search Status" = Some (VStr "Error")))
         all_rows.
Proof.
  intros Hrun.
  pose proof (bulk_upload_report_has_title _ _ _ _ Hrun) as Ht.
  rewrite bulk_upload_loop in Hrun by done.
  destruct (run_loop _ _ [] w) as [[out|e] w1] eqn:Hloop; [|done].
  injection Hrun as -> ->.
  eapply bulk_loop_forall; [|constructor|exact Hloop].
  intros row w0 fr w2 (query & country & o & Ho & Hf)%bulk_row_formatted.
  destruct (search_outcome_shape _ _ _ _ Ho) as [[Herr Hres]|[Herr [x Hx]]].
  - rewrite Herr in Hf.
    destruct (format_error_row _ _ _ _ Herr Hf) as (Hs & Hm & Hsize).
    split_and!; [lia|by right|]. by rewrite Hm, Hs.
  - rewrite Herr in Hf. simpl in Hf.
    destruct (format_success_row _ _ VNone _ eq_refl Hf) as (Hs & Hm).
    destruct (size_format_success _ _ _ _ Hf eq_refl) as (ds & Hiter & ->).
    pose proof (py_iter_slice_length _ _ _ _ Hx Hiter) as Hlen.
    rewrite length_fmap in Hlen.
    split_and!; [lia|by left|]. rewrite Hm, Hs. split; [by intros [? ?]|done].
Qed.

(** X12: a run sends at most one request per row of the table, whether it
    comes to its end or raises. *)
Theorem bulk_requests_at_most_rows df w :
  ∃ requests,
    (bulk_upload server SERPER_API_KEY df w).2 = w ++ requests
    ∧ length requests ≤ length (queried (rows df))
    ∧ length (queried (rows df)) ≤ length (rows df).
Proof.
  assert (length (queried (rows df)) ≤ length (rows df)) as Hq.
  { apply length_filter. }
  destruct (decide ("Product Title" ∈ columns df)) as [Ht|Ht].
  - destruct (columns_default_country df) as [Hc Ht']. specialize (Ht' Ht).
    rewrite bulk_upload_loop by done.
    destruct (bulk_loop_sent server SERPER_API_KEY
                (columns (default_country df))
                (country_filled (columns df) <$> rows df) [] w)
      as (requests & Hsent & Hpre); [done..|].
    exists requests. split_and!; [|clear Hsent|done].
    + by destruct (run_loop _ _ [] w) as [[out|e] w1].
    + apply prefix_length in Hpre.
      by rewrite length_fmap, queried_country_filled, length_fmap in Hpre.
  - exists []. unfold bulk_upload. rewrite bool_decide_eq_true_2 by done.
    split_and!; [by rewrite app_nil_r|simpl; lia|done].
Qed.

(** X13: a row is skipped exactly when the text of its title is made of
    white-space characters only (the characters [str.strip()] removes,
    Unicode ones included; the empty text is such a text); a skipped row
    changes nothing. *)
Theorem bulk_row_skipped_iff cols row w :
  "Product Title" ∈ cols → "Country" ∈ cols →
  bulk_row server SERPER_API_KEY cols row w = (Ok None, w)
  ↔ spaces_of whitespace (str (default CNaN (row !! "Product Title"))).
Proof.
  intros Ht Hc. rewrite <- strip_empty_iff. fold (query_text row). split.
  - intros Hrun. destruct (decide (query_text row = "")) as [|Hq]; [done|].
    rewrite bulk_row_queried in Hrun by done.
    destruct ((search _ _ w).1) as [o|]; [|done].
    by destruct (if truthy (error o) then _ else _).
  - by apply bulk_row_blank.
Qed.

(** X14: the query of a row that is not skipped is its title text without
    the white space around it: the text is white space, the query, white
    space, and the query neither starts nor ends with a white-space
    character. *)
Theorem bulk_row_query_trimmed cols row w :
  "Product Title" ∈ cols → "Country" ∈ cols →
  query_text row ≠ "" →
  ∃ req before after,
    (bulk_row server SERPER_API_KEY cols row w).2 = w ++ [req]
    ∧ sent_query req = Some (query_text row)
    ∧ str (default CNaN (row !! "Product Title"))
      = before +:+ query_text row +:+ after
    ∧ spaces_of whitespace before ∧ spaces_of whitespace after
    ∧ ∀ c rest, c ∈ whitespace →
        query_text row ≠ c +:+ rest ∧ query_text row ≠ rest +:+ c.
Proof.
  intros Ht Hc Hq. rewrite bulk_row_queried by done.
  destruct (strip_split (str (default CNaN (row !! "Product Title"))))
    as (before & after & Hsplit & Hb & Ha).
  fold (query_text row) in Hsplit.
  exists (request_of row), before, after.
  split_and!; try done.
  intros c rest Hin. by apply strip_no_space.
Qed.

(** X15: the Country default keeps the number of rows and every cell
    under another label, keeps a Country cell that is not missing, and
    leaves no row with a missing Country. *)
Theorem default_country_fills_only_missing df i row :
  rows df !! i = Some row →
  length (rows (default_country df)) = length (rows df)
  ∧ ∃ row',
      rows (default_country df) !! i = Some row'
      ∧ (∀ label, label ≠ "Country" → row' !! label = row !! label)
      ∧ (∀ c, "Country" ∈ columns df → row !! "Country" = Some c →
           c ≠ CNaN → row' !! "Country" = Some c)
      ∧ (∃ c, row' !! "Country" = Some c ∧ c ≠ CNaN).
Proof.
  intros Hrow. rewrite rows_default_country, length_fmap. split; [done|].
  exists (country_filled (columns df) row).
  rewrite list_lookup_fmap, Hrow. split; [done|].
  unfold country_filled.
  destruct (bool_decide ("Country" ∉ columns df)) eqn:Hcol.
  - apply bool_decide_eq_true in Hcol. split_and!.
    + intros label Hl. by rewrite lookup_insert_ne.
    + intros c Hin. done.
    + exists (CStr "us"). by rewrite lookup_insert_eq.
  - split_and!.
    + intros label Hl. by rewrite lookup_insert_ne.
    + intros c _ -> Hc. rewrite lookup_insert_eq. by destruct c.
    + eexists. rewrite lookup_insert_eq. split; [done|].
      by destruct (default CNaN (row !! "Country")).
Qed.

End BulkRunnerEdges.

(** ** The page *)

Lemma silent_bind {A B} (c : App A) (k : A → App B) :
  silent c → (∀ a, silent (k a)) → silent (app_bind c k).
Proof.
  intros Hc Hk s. unfold app_bind. specialize (Hc s).
  destruct (c s) as [[a|e|] s']; simpl in *; [|done..].
  by rewrite Hk.
Qed.

Lemma silent_show e : silent (show e).
Proof. by intros s. Qed.

Lemma silent_eval {A} (r : result A) : silent (eval r).
Proof. by intros s. Qed.

Lemma silent_pass : silent pass.
Proof. by intros s. Qed.

Lemma show_link_silent i r : silent (show_link i r).
Proof.
  unfold show_link.
  repeat first [apply silent_bind; [|intros ?]
               |apply silent_show|apply silent_eval].
Qed.

Lemma google_items_silent i items : silent (google_items i items).
Proof.
  revert i. induction items as [|item items IH]; intros i.
  { apply silent_pass. }
  simpl. apply silent_bind; [|intros _; apply IH].
  unfold google_item.
  repeat first [apply silent_bind; [|intros ?]|apply show_link_silent
               |apply silent_show|apply silent_eval].
Qed.

Lemma serper_items_silent i items : silent (serper_items i items).
Proof.
  revert i. induction items as [|r items IH]; intros i.
  { apply silent_pass. }
  simpl. apply silent_bind; [|intros _; apply IH].
  unfold serper_item.
  repeat first [apply silent_bind; [|intros ?]|apply show_link_silent
               |apply silent_show|apply silent_eval
               |match goal with |- silent (if ?b then _ else _) =>
                  destruct b end
               |apply silent_pass].
Qed.

(** The entries of a list of records: three elements each on the
    web-search page. *)
Lemma google_items_records i (ds : list (list (string * value))) s :
  ∃ entries,
    google_items i (VDict <$> ds) s
    = (Goes (), {| sent := sent s; shown := shown s ++ entries |})
    ∧ length entries = 3 * length ds.
Proof.
  revert i s. induction ds as [|d ds IH]; intros i s.
  { exists []. destruct s. by rewrite app_nil_r. }
  rewrite fmap_cons. cbn [google_items]. unfold app_bind at 1.
  unfold google_item, show_link, app_bind, eval, show. cbn [py_get sent shown].
  match goal with |- context [google_items (S i) _ ?s'] =>
    destruct (IH (S i) s') as (entries & -> & Hlen) end.
  cbn [sent shown]. eexists (_ :: _ :: _ :: entries).
  split; [by rewrite <- !app_assoc|]. simpl. lia.
Qed.

(** Five elements for each record on the shopping page, and before the
    last of them the image of a record that has one. *)
Lemma serper_items_records i (ds : list (list (string * value))) s :
  ∃ entries,
    serper_items i (VDict <$> ds) s
    = (Goes (), {| sent := sent s; shown := shown s ++ entries |})
    ∧ length entries
      = 5 * length ds + length (filter (λ d, has_image d = true) ds)
    ∧ shown_images entries
      = (λ d, (dict_get d "imageUrl" VNone, 120%Z))
        <$> filter (λ d, has_image d = true) ds.
Proof.
  revert i s. induction ds as [|d ds IH]; intros i s.
  { exists []. destruct s. by rewrite app_nil_r. }
  rewrite fmap_cons, filter_cons. cbn [serper_items]. unfold app_bind at 1.
  unfold serper_item, show_link, app_bind, eval, show, pass.
  cbn [py_get sent shown]. fold (has_image d).
  destruct (has_image d) eqn:Himg; cbn [sent shown].
  - match goal with |- context [serper_items (S i) _ ?s'] =>
      destruct (IH (S i) s') as (entries & -> & Hlen & Himgs) end.
    rewrite decide_True by done.
    cbn [sent shown]. eexists (_ :: _ :: _ :: _ :: _ :: _ :: entries).
    split; [by rewrite <- !app_assoc|]. split.
    + simpl. lia.
    + rewrite fmap_cons, <- Himgs. unfold shown_images. by cbn [omap].
  - match goal with |- context [serper_items (S i) _ ?s'] =>
      destruct (IH (S i) s') as (entries & -> & Hlen & Himgs) end.
    rewrite decide_False by done.
    cbn [sent shown]. eexists (_ :: _ :: _ :: _ :: _ :: entries).
    split; [by rewrite <- !app_assoc|]. split.
    + simpl. lia.
    + rewrite <- Himgs. unfold shown_images. by cbn [omap].
Qed.

Section PageProperties.

Variable server : world → request → result Response.
Variable GOOGLE_API_KEY GOOGLE_CSE_ID SERPER_API_KEY : option string.

Local Abbreviation script :=
  (main server GOOGLE_API_KEY GOOGLE_CSE_ID SERPER_API_KEY).

Local Abbreviation title_shown := (st_title (Val (VStr "🔍 Product Info App"))).
Local Abbreviation google_header :=
  (st_header (Val (VStr "Google Custom Search for Products / ASIN"))).
Local Abbreviation serper_header :=
  (st_header (Val (VStr "Serper Shopping Search"))).

(** X16: without its credentials a mode is blocked: when the web-search
    key or engine id is missing or empty, or the shopping key is missing
    or empty, the page of that mode shows the title, the header and one
    error, and sends no request, whatever the widgets hold. *)
Theorem page_without_credentials_is_blocked ui s :
  (sel_mode ui = GoogleCustomSearch →
   truthy (getenv GOOGLE_API_KEY) = false
   ∨ truthy (getenv GOOGLE_CSE_ID) = false →
   main server GOOGLE_API_KEY GOOGLE_CSE_ID SERPER_API_KEY ui s =
     (Goes (),
      {| sent := sent s;
         shown := shown s ++
           [title_shown; google_header;
            st_error (Val (VStr
              "Google API key or Custom Search Engine ID not found in environment variables."))]
      |}))
  ∧ (sel_mode ui = SerperShopping →
     truthy (getenv SERPER_API_KEY) = false →
     main server GOOGLE_API_KEY GOOGLE_CSE_ID SERPER_API_KEY ui s =
       (Goes (),
        {| sent := sent s;
           shown := shown s ++
             [title_shown; serper_header;
              st_error (Val (VStr
                "Serper API key not found in environment variables."))] |})).
Proof.
  split.
  - intros Hmode Hkeys. unfold main, google_page, app_bind, show.
    rewrite Hmode. cbn [sent shown fst snd].
    assert (negb (truthy (getenv GOOGLE_API_KEY))
            || negb (truthy (getenv GOOGLE_CSE_ID)) = true) as ->.
    { destruct Hkeys as [-> | ->]; [done|]. apply orb_true_r. }
    cbn [sent shown]. by rewrite <- !app_assoc.
  - intros Hmode Hkey. unfold main, serper_page, app_bind, show.
    rewrite Hmode, Hkey. cbn [sent shown negb]. by rewrite <- !app_assoc.
Qed.

(** X17: a run in which no button is pressed sends no request, in either
    mode and whatever else the widgets hold. *)
Theorem page_idle_sends_nothing ui s :
  btn_google_search ui = false →
  btn_serper_search ui = false →
  btn_run_bulk ui = false →
  sent (main server GOOGLE_API_KEY GOOGLE_CSE_ID SERPER_API_KEY ui s).2 = sent s.
Proof.
  intros Hg Hs Hb. unfold main, app_bind, show. cbn [sent shown].
  destruct (sel_mode ui).
  - unfold google_page, app_bind, show. cbn [sent shown].
    destruct (_ || _); [done|]. by rewrite Hg.
  - unfold serper_page, app_bind, show. cbn [sent shown].
    destruct (negb _); [done|].
    destruct (sel_serper_mode ui).
    + unfold search_by_name. by rewrite Hs.
    + unfold bulk_upload_csv, app_bind, show, st_stop, pass.
      destruct (uploaded_file ui) as [df|]; [|done]. rewrite Hb.
      by destruct (bool_decide _).
Qed.

(** X18: in the two single-query modes a pressed button with an empty
    text shows a warning and sends no request. *)
Theorem page_empty_input_warns ui s :
  (sel_mode ui = GoogleCustomSearch →
   truthy (getenv GOOGLE_API_KEY) = true →
   truthy (getenv GOOGLE_CSE_ID) = true →
   btn_google_search ui = true → in_query ui = "" →
   main server GOOGLE_API_KEY GOOGLE_CSE_ID SERPER_API_KEY ui s =
     (Goes (),
      {| sent := sent s;
         shown := shown s ++
           [title_shown; google_header;
            st_warning (Val (VStr
              "Please enter a product name or ASIN to search."))] |}))
  ∧ (sel_mode ui = SerperShopping →
     truthy (getenv SERPER_API_KEY) = true →
     sel_serper_mode ui = SearchByName →
     btn_serper_search ui = true → in_product_name ui = "" →
     main server GOOGLE_API_KEY GOOGLE_CSE_ID SERPER_API_KEY ui s =
       (Goes (),
        {| sent := sent s;
           shown := shown s ++
             [title_shown; serper_header;
              st_warning (Val (VStr
                "Please enter a product name to search."))] |})).
Proof.
  split.
  - intros Hmode Hk Hc Hb Hq. unfold main, google_page, app_bind, show.
    rewrite Hmode, Hk, Hc, Hb, Hq.
    assert (truthy (VStr "") = false) as -> by reflexivity.
    cbn [sent shown negb orb]. by rewrite <- !app_assoc.
  - intros Hmode Hk Hsm Hb Hq.
    unfold main, serper_page, search_by_name, app_bind, show.
    rewrite Hmode, Hk, Hsm, Hb, Hq.
    assert (truthy (VStr "") = false) as -> by reflexivity.
    cbn [sent shown negb]. by rewrite <- !app_assoc.
Qed.

(** X19: a single-query search with a non-empty text sends exactly one
    request, whatever comes back: the web search its query with the key
    and engine id of the environment, the shopping search the product
    name as typed (not trimmed) with the typed country lower-cased. *)
Theorem page_single_search_sends_one_request ui s :
  (sel_mode ui = GoogleCustomSearch →
   truthy (getenv GOOGLE_API_KEY) = true →
   truthy (getenv GOOGLE_CSE_ID) = true →
   btn_google_search ui = true → in_query ui ≠ "" →
   sent (main server GOOGLE_API_KEY GOOGLE_CSE_ID SERPER_API_KEY ui s).2
   = sent s ++ [google_request (in_query ui) (default "" GOOGLE_API_KEY)
                  (default "" GOOGLE_CSE_ID)])
  ∧ (sel_mode ui = SerperShopping →
     truthy (getenv SERPER_API_KEY) = true →
     sel_serper_mode ui = SearchByName →
     btn_serper_search ui = true → in_product_name ui ≠ "" →
     sent (main server GOOGLE_API_KEY GOOGLE_CSE_ID SERPER_API_KEY ui s).2
     = sent s ++ [serper_request SERPER_API_KEY (in_product_name ui)
                    (in_country_code ui)]).
Proof.
  split.
  - intros Hmode Hk Hc Hb Hq. unfold main, google_page, app_bind, show.
    rewrite Hmode, Hk, Hc, Hb. cbn [sent shown negb orb].
    assert (truthy (VStr (in_query ui)) = true) as ->.
    { simpl. by rewrite bool_decide_eq_false_2. }
    cbn [negb]. unfold call at 1. cbn [sent shown].
    pose proof (google_sends_one server (in_query ui)
                  (default "" GOOGLE_API_KEY) (default "" GOOGLE_CSE_ID)
                  (sent s)) as Hsent.
    destruct (google_custom_search _ _ _ _ _) as [[found|e] w];
      simpl in Hsent; subst w; [|done].
    destruct (match found with VDict d => _ | _ => false end).
    { unfold eval. by destruct (match found with VDict d => _ | _ => _ end). }
    destruct (negb (truthy found)); [done|].
    unfold eval. destruct (py_len found); [|done]. cbn [sent shown].
    destruct (py_iter found) as [items|]; [|done].
    apply google_items_silent.
  - intros Hmode Hk Hsm Hb Hq.
    unfold main, serper_page, search_by_name, app_bind, show.
    rewrite Hmode, Hk, Hsm, Hb. cbn [sent shown negb].
    assert (truthy (VStr (in_product_name ui)) = true) as ->.
    { simpl. by rewrite bool_decide_eq_false_2. }
    cbn [negb]. unfold call at 1. cbn [sent shown].
    pose proof (search_sends_one server SERPER_API_KEY (in_product_name ui)
                  (in_country_code ui) (sent s)) as Hsent.
    destruct (search_serper_shopping _ _ _ _ _) as [[o|e] w];
      simpl in Hsent; subst w; [|done].
    destruct (truthy (error o)); [done|].
    unfold eval. destruct (py_len (results o)); [|done]. cbn [sent shown].
    destruct (py_iter (results o)) as [items|]; [|done].
    apply serper_items_silent.
Qed.

Lemma google_not_200 query api_key cx w resp :
  server w (google_request query api_key cx) = Ok resp →
  status_code resp ≠ 200%Z →
  google_custom_search server query api_key cx w =
    (Ok (VDict [("error",
                 VStr ("Google Custom Search API error: "
                       +:+ pretty (status_code resp)
                       +:+ " - " +:+ text resp))]),
     w ++ [google_request query api_key cx]).
Proof.
  intros Hresp Hcode. unfold google_custom_search, bind, send.
  rewrite Hresp. by apply Z.eqb_neq in Hcode as ->.
Qed.

Lemma google_200 query api_key cx w resp d :
  server w (google_request query api_key cx) = Ok resp →
  status_code resp = 200%Z →
  json resp = Some (VDict d) →
  google_custom_search server query api_key cx w =
    (Ok (dict_get d "items" (VList [])),
     w ++ [google_request query api_key cx]).
Proof.
  intros Hresp Hcode Hjson. unfold google_custom_search, bind, send.
  rewrite Hresp, Hcode. simpl. unfold lift, response_json. by rewrite Hjson.
Qed.

Lemma assoc_head key v d : assoc key ((key, v) :: d) = Some v.
Proof. simpl. by rewrite decide_True. Qed.

Lemma truthy_google_error code body :
  truthy (VStr ("Google Custom Search API error: " +:+ code +:+ " - "
                +:+ body)) = true.
Proof. reflexivity. Qed.

Ltac enter_google ui H :=
  destruct H as (Hmode & Hk & Hc & Hb & Hq);
  unfold main, google_page, app_bind, show;
  rewrite Hmode, Hk, Hc, Hb; cbn [sent shown negb orb];
  assert (truthy (VStr (in_query ui)) = true) as ->
    by (simpl; by rewrite bool_decide_eq_false_2);
  cbn [negb]; unfold call at 1; cbn [sent shown].

Ltac enter_serper ui H :=
  destruct H as (Hmode & Hk & Hsm & Hb & Hq);
  unfold main, serper_page, search_by_name, app_bind, show;
  rewrite Hmode, Hk, Hsm, Hb; cbn [sent shown negb];
  assert (truthy (VStr (in_product_name ui)) = true) as ->
    by (simpl; by rewrite bool_decide_eq_false_2);
  cbn [negb]; unfold call at 1; cbn [sent shown].

(** X20: when the provider answers a single-query search with a status
    other than 200, the page shows the client's error message, with the
    status code and the body, and nothing else below the header. *)
Theorem page_shows_provider_error ui s resp :
  status_code resp ≠ 200%Z →
  (google_search_pressed GOOGLE_API_KEY GOOGLE_CSE_ID ui →
   server (sent s) (google_request (in_query ui) (default "" GOOGLE_API_KEY)
                      (default "" GOOGLE_CSE_ID)) = Ok resp →
   main server GOOGLE_API_KEY GOOGLE_CSE_ID SERPER_API_KEY ui s =
     (Goes (),
      {| sent := sent s ++ [google_request (in_query ui)
                              (default "" GOOGLE_API_KEY)
                              (default "" GOOGLE_CSE_ID)];
         shown := shown s ++
           [title_shown; google_header;
            st_error (Val (VStr ("Google Custom Search API error: "
                                 +:+ pretty (status_code resp)
                                 +:+ " - " +:+ text resp)))] |}))
  ∧ (serper_search_pressed SERPER_API_KEY ui →
     server (sent s) (serper_request SERPER_API_KEY (in_product_name ui)
                        (in_country_code ui)) = Ok resp →
     main server GOOGLE_API_KEY GOOGLE_CSE_ID SERPER_API_KEY ui s =
       (Goes (),
        {| sent := sent s ++ [serper_request SERPER_API_KEY
                                (in_product_name ui) (in_country_code ui)];
           shown := shown s ++
             [title_shown; serper_header;
              st_error (Val (VStr ("Serper API error: "
                                   +:+ pretty (status_code resp)
                                   +:+ " - " +:+ text resp)))] |})).
Proof.
  intros Hcode. split.
  - intros Hui Hresp. enter_google ui Hui.
    rewrite (google_not_200 _ _ _ _ _ Hresp Hcode).
    unfold dict_get. rewrite !assoc_head. cbn [default from_option id].
    rewrite truthy_google_error.
    unfold eval. cbn [sent shown]. by rewrite <- !app_assoc.
  - intros Hui Hresp. enter_serper ui Hui.
    rewrite (search_not_200 _ _ _ _ _ _ Hresp Hcode). cbn [error].
    rewrite truthy_serper_error. cbn [sent shown]. by rewrite <- !app_assoc.
Qed.

(** X21: the shopping page never lists more than 41 results: for a
    successful response with n records it announces min(41, n) results
    and shows, for each of the first 41 records, five elements and, for a
    record whose "imageUrl" is truthy, a sixth: its image, at width 120.
    The images shown are exactly those, in order.  Nothing in the script
    raises (the display calls are recorded, not performed). *)
Theorem serper_page_shows_at_most_41 ui s resp items :
  serper_search_pressed SERPER_API_KEY ui →
  server (sent s) (serper_request SERPER_API_KEY (in_product_name ui)
                     (in_country_code ui)) = Ok resp →
  shopping_ok resp items →
  ∃ entries,
    main server GOOGLE_API_KEY GOOGLE_CSE_ID SERPER_API_KEY ui s =
      (Goes (),
       {| sent := sent s ++ [serper_request SERPER_API_KEY
                               (in_product_name ui) (in_country_code ui)];
          shown := shown s ++
            [title_shown; serper_header;
             st_success
               (FString [Lit "Found ";
                         Fmt (VInt (Z.of_nat (41 `min` length items)));
                         Lit " results:"])] ++ entries |})
    ∧ length entries
      = 5 * (41 `min` length items)
        + length (filter (λ d, has_image d = true) (take 41 items))
    ∧ shown_images entries
      = (λ d, (dict_get d "imageUrl" VNone, 120%Z))
        <$> filter (λ d, has_image d = true) (take 41 items)
    ∧ 41 `min` length items ≤ 41.
Proof.
  intros Hui Hresp (Hcode & d & Hjson & Hshop). enter_serper ui Hui.
  rewrite (search_200 _ _ _ _ _ _ _ Hresp Hcode Hjson), Hshop.
  cbn [py_slice_to error results truthy]. rewrite <- fmap_take.
  unfold eval. cbn [py_len py_iter sent shown].
  rewrite length_fmap, length_take.
  match goal with |- context [serper_items 1 _ ?s'] =>
    destruct (serper_items_records 1 (take 41 items) s')
      as (entries & -> & Hlen & Himgs) end.
  rewrite length_take in Hlen. cbn [sent shown].
  exists entries. split_and!; [by rewrite <- !app_assoc|done|done|lia].
Qed.

(** X22: the web-search page has no cap: for a status-200 response whose
    "items" are n > 0 records it announces n results and shows three
    elements for each of them, and ends normally. *)
Theorem google_page_shows_all_results ui s resp d ds :
  google_search_pressed GOOGLE_API_KEY GOOGLE_CSE_ID ui →
  server (sent s) (google_request (in_query ui) (default "" GOOGLE_API_KEY)
                     (default "" GOOGLE_CSE_ID)) = Ok resp →
  status_code resp = 200%Z →
  json resp = Some (VDict d) →
  assoc "items" d = Some (VList (VDict <$> ds)) →
  ds ≠ [] →
  ∃ entries,
    main server GOOGLE_API_KEY GOOGLE_CSE_ID SERPER_API_KEY ui s =
      (Goes (),
       {| sent := sent s ++ [google_request (in_query ui)
                               (default "" GOOGLE_API_KEY)
                               (default "" GOOGLE_CSE_ID)];
          shown := shown s ++
            [title_shown; google_header;
             st_success
               (FString [Lit "Found "; Fmt (VInt (Z.of_nat (length ds)));
                         Lit " results:"])] ++ entries |})
    ∧ length entries = 3 * length ds.
Proof.
  intros Hui Hresp Hcode Hjson Hitems Hds. enter_google ui Hui.
  rewrite (google_200 _ _ _ _ _ _ Hresp Hcode Hjson).
  unfold dict_get. rewrite Hitems. cbn [default from_option id truthy].
  rewrite bool_decide_eq_false_2 by (by destruct ds).
  cbn [negb]. unfold eval. cbn [py_len py_iter sent shown].
  rewrite length_fmap.
  match goal with |- context [google_items 1 _ ?s'] =>
    destruct (google_items_records 1 ds s') as (entries & -> & Hlen) end.
  cbn [sent shown]. exists entries. split; [by rewrite <- !app_assoc|done].
Qed.

(** X23: a status-200 response without "items", or with an empty list of
    items, shows "No results found." and nothing else below the header. *)
Theorem google_page_no_results ui s resp d :
  google_search_pressed GOOGLE_API_KEY GOOGLE_CSE_ID ui →
  server (sent s) (google_request (in_query ui) (default "" GOOGLE_API_KEY)
                     (default "" GOOGLE_CSE_ID)) = Ok resp →
  status_code resp = 200%Z →
  json resp = Some (VDict d) →
  assoc "items" d = None ∨ assoc "items" d = Some (VList []) →
  main server GOOGLE_API_KEY GOOGLE_CSE_ID SERPER_API_KEY ui s =
    (Goes (),
     {| sent := sent s ++ [google_request (in_query ui)
                             (default "" GOOGLE_API_KEY)
                             (default "" GOOGLE_CSE_ID)];
        shown := shown s ++
          [title_shown; google_header;
           st_info (Val (VStr "No results found."))] |}).
Proof.
  intros Hui Hresp Hcode Hjson Hitems. enter_google ui Hui.
  rewrite (google_200 _ _ _ _ _ _ Hresp Hcode Hjson).
  unfold dict_get.
  destruct Hitems as [-> | ->]; cbn [default from_option id truthy length];
    rewrite bool_decide_eq_true_2 by done;
    cbn [sent shown negb]; by rewrite <- !app_assoc.
Qed.

(** X24: the bulk branch with the button pressed is the bulk run of the
    uploaded table: a finished run offers its rows for download after a
    success message, unless there is no row, in which case nothing is
    shown; an exception of the run escapes with nothing shown; a table
    without the title column shows the error and stops the script. *)
Theorem bulk_page_is_bulk_upload ui s df :
  bulk_selected SERPER_API_KEY ui df →
  btn_run_bulk ui = true →
  main server GOOGLE_API_KEY GOOGLE_CSE_ID SERPER_API_KEY ui s =
    match bulk_upload server SERPER_API_KEY df (sent s) with
    | (Ok (Report all_rows), w') =>
        (Goes (),
         {| sent := w';
            shown := shown s ++ [title_shown; serper_header] ++
              (if bool_decide (all_rows = []) then []
               else [st_success (Val (VStr "Bulk search completed."));
                     st_download_button "Download Bulk Search Results CSV"
                       all_rows "serper_bulk_search_results.csv"
                       "text/csv"]) |})
    | (Ok (Stopped message), w') =>
        (Stops,
         {| sent := w';
            shown := shown s ++ [title_shown; serper_header;
                                 st_error (Val (VStr message))] |})
    | (Raise e, w') =>
        (Raises e,
         {| sent := w'; shown := shown s ++ [title_shown; serper_header] |})
    end.
Proof.
  intros (Hmode & Hk & Hsm & Hfile) Hb.
  unfold main, serper_page, bulk_upload_csv, bulk_upload, app_bind, show,
    st_stop, pass.
  rewrite Hmode, Hk, Hsm, Hfile, Hb. cbn [sent shown negb].
  destruct (bool_decide ("Product Title" ∉ columns df)).
  { unfold ret. cbn [sent shown]. by rewrite <- !app_assoc. }
  cbn [sent shown]. unfold call, bind. cbn [sent shown].
  destruct (bulk_loop _ _ _ _ [] (sent s)) as [[all_rows|e] w'].
  - unfold ret. destruct (bool_decide (all_rows = [])); cbn [negb sent shown];
      by rewrite <- !app_assoc.
  - by rewrite <- !app_assoc.
Qed.

(** X25: a table without a "Product Title" column is refused before the
    button is looked at: the error is shown, the script stops, and no
    request is sent. *)
Theorem bulk_page_missing_column_stops ui s df :
  bulk_selected SERPER_API_KEY ui df →
  "Product Title" ∉ columns df →
  main server GOOGLE_API_KEY GOOGLE_CSE_ID SERPER_API_KEY ui s =
    (Stops,
     {| sent := sent s;
        shown := shown s ++
          [title_shown; serper_header;
           st_error (Val (VStr "CSV must have a 'Product Title' column."))]
     |}).
Proof.
  intros (Hmode & Hk & Hsm & Hfile) Ht.
  unfold main, serper_page, bulk_upload_csv, app_bind, show, st_stop, pass.
  rewrite Hmode, Hk, Hsm, Hfile. cbn [sent shown negb].
  rewrite bool_decide_eq_true_2 by done. cbn [sent shown].
  by rewrite <- !app_assoc.
Qed.

(** X26: when the title text of every row of the table is made of
    white-space characters only, the bulk page sends nothing and shows
    nothing below the header, pressed or not: no success message and no
    download.  (An empty field of the file is not such a row: it is read
    as NaN, whose text is "nan".) *)
Theorem bulk_page_all_blank_shows_nothing ui s df :
  bulk_selected SERPER_API_KEY ui df →
  "Product Title" ∈ columns df →
  Forall (λ row : gmap string cell,
            spaces_of whitespace (str (default CNaN (row !! "Product Title"))))
         (rows df) →
  main server GOOGLE_API_KEY GOOGLE_CSE_ID SERPER_API_KEY ui s =
    (Goes (),
     {| sent := sent s; shown := shown s ++ [title_shown; serper_header] |}).
Proof.
  intros (Hmode & Hk & Hsm & Hfile) Ht Hall.
  assert (queried (rows df) = []) as Hblank.
  { unfold queried. induction Hall as [|row todo Hrow Hall IH]; [done|].
    rewrite filter_cons_False; [done|].
    intros H. apply H. by apply strip_empty_iff. }
  destruct (columns_default_country df) as [Hc Ht']. specialize (Ht' Ht).
  unfold main, serper_page, bulk_upload_csv, app_bind, show, st_stop, pass.
  rewrite Hmode, Hk, Hsm, Hfile. cbn [sent shown negb].
  rewrite bool_decide_eq_false_2 by (intros H; by apply H).
  cbn [sent shown]. destruct (btn_run_bulk ui).
  - unfold call. cbn [sent shown].
    rewrite bulk_loop_skip, rows_default_country, queried_country_filled,
      Hblank by done.
    cbn [fmap list_fmap bulk_loop]. unfold ret. cbn [negb bool_decide].
    rewrite bool_decide_eq_true_2 by done. by rewrite <- !app_assoc.
  - by rewrite <- !app_assoc.
Qed.

End PageProperties.

(** ** The further properties on sample inputs *)

Lemma serper_results_prefix_witness :
  ∃ found,
    (search_serper_shopping (always (listing 200 "shopping" [1; 2; 3])) None
       "widget" "us" []).1
    = Ok {| error := VNone; results := VList found |}
    ∧ found = VDict ∘ ranked <$> [1; 2; 3].
Proof.
  destruct (serper_results_prefix (always (listing 200 "shopping" [1; 2; 3]))
              None "widget" "us" [] (listing 200 "shopping" [1; 2; 3])
              [("shopping", VList (VDict ∘ ranked <$> [1; 2; 3]))]
              (VDict ∘ ranked <$> [1; 2; 3]) eq_refl eq_refl eq_refl eq_refl)
    as (found & Hrun & _ & _ & Hwhole).
  exists found. split; [exact Hrun|]. apply Hwhole. vm_compute. lia.
Defined.

Lemma serper_missing_shopping_is_empty_witness :
  ∃ o,
    (search_serper_shopping (always empty_object) None "widget" "us" []).1
    = Ok o
    ∧ error o = VNone ∧ results o = VList []
    ∧ format_results_for_csv "widget" (results o) (error o)
      = Ok (<["Search Status" := VStr "Success"]>
              (<["Product Title" := VStr "widget"]> ∅)).
Proof.
  apply (serper_missing_shopping_is_empty (always empty_object) None
           "widget" "us" [] empty_object []); reflexivity.
Defined.

Lemma format_row_invariant_witness :
  ∃ row,
    format_results_for_csv "widget" (VList [VDict (ranked 1)]) VNone = Ok row
    ∧ row !! "Product Title" = Some (VStr "widget")
    ∧ row !! "Error Message" = None.
Proof.
  eexists. split; [reflexivity|].
  destruct (format_row_invariant "widget" (VList [VDict (ranked 1)]) VNone
              _ eq_refl) as [Ht [(Herr & _)|(_ & _ & Hm)]].
  - discriminate Herr.
  - split; [exact Ht|exact Hm].
Defined.

Lemma bulk_upload_append_witness :
  ∃ out1 w1,
    bulk_upload except_widget_b None
      {| columns := two_columns; rows := [widget_a] |} []
    = (Ok (Report out1), w1)
    ∧ bulk_upload except_widget_b None
        {| columns := two_columns; rows := [widget_a] ++ [widget_b; widget_c] |}
        []
      = match bulk_upload except_widget_b None
                {| columns := two_columns; rows := [widget_b; widget_c] |}
                w1 with
        | (Ok (Report out2), w2) => (Ok (Report (out1 ++ out2)), w2)
        | other => other
        end.
Proof.
  assert (bulk_upload except_widget_b None
            {| columns := two_columns; rows := [widget_a] |} []
          = (Ok (Report
                   (match (bulk_upload except_widget_b None
                             {| columns := two_columns; rows := [widget_a] |}
                             []).1 with
                    | Ok (Report out) => out
                    | _ => []
                    end)),
             (bulk_upload except_widget_b None
                {| columns := two_columns; rows := [widget_a] |} []).2))
    as Hrun by (vm_compute; reflexivity).
  eexists _, _. split; [exact Hrun|].
  exact (bulk_upload_append except_widget_b None two_columns [widget_a]
           [widget_b; widget_c] [] _ _ Hrun).
Defined.

Lemma bulk_upload_aborts_on_exception_witness :
  bulk_upload (always garbled) None
    {| columns := two_columns; rows := [] ++ widget_a :: [widget_b] |} []
  = (Raise JSONDecodeError,
     [] ++ [row_request None (country_filled two_columns widget_a)]).
Proof.
  apply (bulk_upload_aborts_on_exception (always garbled) None two_columns
           [] widget_a [widget_b] [] [] [] JSONDecodeError).
  - reflexivity.
  - vm_compute. discriminate.
  - reflexivity.
Defined.

Lemma bulk_report_rows_bounded_witness :
  ∃ all_rows w',
    bulk_upload (always (listing 200 "shopping" (seq 1 50))) None
      three_widgets [] = (Ok (Report all_rows), w')
    ∧ length all_rows = 3
    ∧ Forall (λ row : Row, size row ≤ 371) all_rows.
Proof.
  assert (bulk_upload (always (listing 200 "shopping" (seq 1 50))) None
            three_widgets []
          = (Ok (Report
                   (match (bulk_upload
                             (always (listing 200 "shopping" (seq 1 50)))
                             None three_widgets []).1 with
                    | Ok (Report out) => out
                    | _ => []
                    end)),
             (bulk_upload (always (listing 200 "shopping" (seq 1 50))) None
                three_widgets []).2))
    as Hrun by (vm_compute; reflexivity).
  eexists _, _. split; [exact Hrun|]. split; [vm_compute; reflexivity|].
  eapply Forall_impl.
  - exact (bulk_report_rows_bounded _ _ _ _ _ _ Hrun).
  - intros row (Hsize & _). exact Hsize.
Defined.

Lemma bulk_row_skipped_iff_witness :
  bulk_row (always empty_object) None two_columns
    {[ "Product Title" := CStr (utf8 [9; 194; 160]%N);
       "Country" := CStr "us" ]} []
  = (Ok None, []).
Proof.
  apply (bulk_row_skipped_iff (always empty_object) None two_columns
           {[ "Product Title" := CStr (utf8 [9; 194; 160]%N);
              "Country" := CStr "us" ]} []).
  - repeat constructor.
  - repeat constructor.
  - apply strip_empty_iff. reflexivity.
Defined.

Lemma bulk_row_query_trimmed_witness :
  query_text padded_widget = "Widget C"
  ∧ ∃ req before after,
      (bulk_row (always empty_object) None two_columns padded_widget []).2
      = [] ++ [req]
      ∧ sent_query req = Some (query_text padded_widget)
      ∧ str (default CNaN (padded_widget !! "Product Title"))
        = before +:+ query_text padded_widget +:+ after
      ∧ spaces_of whitespace before ∧ spaces_of whitespace after
      ∧ ∀ c rest, c ∈ whitespace →
          query_text padded_widget ≠ c +:+ rest
          ∧ query_text padded_widget ≠ rest +:+ c.
Proof.
  split; [reflexivity|].
  apply (bulk_row_query_trimmed (always empty_object) None two_columns
           padded_widget []).
  - repeat constructor.
  - repeat constructor.
  - vm_compute. discriminate.
Defined.

(** A float title is queried by the text [str] prints for it. *)
Example float_title_is_queried :
  sent_query <$> (bulk_row (always empty_object) None two_columns
                    float_title []).2
  = [Some "123.0"].
Proof. reflexivity. Qed.

Lemma default_country_fills_only_missing_witness :
  length (rows (default_country three_widgets)) = length (rows three_widgets)
  ∧ ∃ row',
      rows (default_country three_widgets) !! 1 = Some row'
      ∧ (∀ label, label ≠ "Country" → row' !! label = widget_b !! label)
      ∧ (∀ c, "Country" ∈ columns three_widgets →
           widget_b !! "Country" = Some c → c ≠ CNaN →
           row' !! "Country" = Some c)
      ∧ (∃ c, row' !! "Country" = Some c ∧ c ≠ CNaN).
Proof.
  apply (default_country_fills_only_missing three_widgets 1 widget_b).
  reflexivity.
Defined.

Lemma page_idle_sends_nothing_witness :
  sent (main except_widget_b None None (Some "key")
          (bulk_ui three_widgets false) (session_start [])).2
  = [].
Proof.
  apply (page_idle_sends_nothing except_widget_b None None (Some "key")
           (bulk_ui three_widgets false) (session_start []));
    reflexivity.
Defined.

Lemma page_shows_provider_error_witness :
  status_code unavailable ≠ 200%Z
  ∧ main (always unavailable) None None (Some "key")
      (serper_ui " widget " "GB") (session_start [])
    = (Goes (),
       {| sent := [serper_request (Some "key") " widget " "GB"];
          shown :=
            [st_title (Val (VStr "🔍 Product Info App"));
             st_header (Val (VStr "Serper Shopping Search"));
             st_error (Val (VStr
               "Serper API error: 503 - Service Unavailable"))] |}).
Proof.
  split; [discriminate|].
  destruct (page_shows_provider_error (always unavailable) None None
              (Some "key") (serper_ui " widget " "GB") (session_start [])
              unavailable) as [_ Hserper]; [discriminate|].
  apply Hserper; [|reflexivity].
  repeat split; discriminate.
Defined.

Lemma serper_page_shows_at_most_41_witness :
  ∃ entries,
    main (always gallery) None None (Some "key")
      (serper_ui "widget" "us") (session_start [])
    = (Goes (),
       {| sent := [] ++ [serper_request (Some "key") "widget" "us"];
          shown := [] ++
            [st_title (Val (VStr "🔍 Product Info App"));
             st_header (Val (VStr "Serper Shopping Search"));
             st_success
               (FString [Lit "Found ";
                         Fmt (VInt (Z.of_nat (41 `min` length
                                                [ranked 1; pictured])));
                         Lit " results:"])] ++ entries |})
    ∧ length entries = 11
    ∧ shown_images entries = [(VStr "https://img.example/w.png", 120%Z)].
Proof.
  destruct (serper_page_shows_at_most_41 (always gallery) None None
              (Some "key") (serper_ui "widget" "us") (session_start [])
              gallery [ranked 1; pictured])
    as (entries & Hrun & Hlen & Himgs & _).
  - repeat split; discriminate.
  - reflexivity.
  - split; [reflexivity|]. eexists. split; reflexivity.
  - exists entries. split; [exact Hrun|]. split; [exact Hlen|exact Himgs].
Defined.

Lemma google_page_shows_all_results_witness :
  ∃ entries,
    main (always (listing 200 "items" (seq 1 50))) (Some "key") (Some "cx")
      None (google_ui "B08VF4SCD1") (session_start [])
    = (Goes (),
       {| sent := [] ++ [google_request "B08VF4SCD1" "key" "cx"];
          shown := [] ++
            [st_title (Val (VStr "🔍 Product Info App"));
             st_header
               (Val (VStr "Google Custom Search for Products / ASIN"));
             st_success
               (FString [Lit "Found ";
                         Fmt (VInt (Z.of_nat (length (ranked <$> seq 1 50))));
                         Lit " results:"])] ++ entries |})
    ∧ length entries = 3 * length (ranked <$> seq 1 50).
Proof.
  apply (google_page_shows_all_results
           (always (listing 200 "items" (seq 1 50))) (Some "key") (Some "cx")
           None (google_ui "B08VF4SCD1") (session_start [])
           (listing 200 "items" (seq 1 50))
           [("items", VList (VDict ∘ ranked <$> seq 1 50))]
           (ranked <$> seq 1 50)).
  - repeat split; discriminate.
  - reflexivity.
  - reflexivity.
  - reflexivity.
  - reflexivity.
  - discriminate.
Defined.

Lemma google_page_no_results_witness :
  main (always empty_object) (Some "key") (Some "cx") None
    (google_ui "B08VF4SCD1") (session_start [])
  = (Goes (),
     {| sent := [] ++ [google_request "B08VF4SCD1" "key" "cx"];
        shown := [] ++
          [st_title (Val (VStr "🔍 Product Info App"));
           st_header (Val (VStr "Google Custom Search for Products / ASIN"));
           st_info (Val (VStr "No results found."))] |}).
Proof.
  apply (google_page_no_results (always empty_object) (Some "key")
           (Some "cx") None (google_ui "B08VF4SCD1") (session_start [])
           empty_object []).
  - repeat split; discriminate.
  - reflexivity.
  - reflexivity.
  - reflexivity.
  - left. reflexivity.
Defined.

Lemma bulk_page_is_bulk_upload_witness :
  ∃ all_rows,
    length all_rows = 3
    ∧ (main except_widget_b None None (Some "key")
         (bulk_ui three_widgets true) (session_start [])).1 = Goes ()
    ∧ shown (main except_widget_b None None (Some "key")
               (bulk_ui three_widgets true) (session_start [])).2
      = [st_title (Val (VStr "🔍 Product Info App"));
         st_header (Val (VStr "Serper Shopping Search"));
         st_success (Val (VStr "Bulk search completed."));
         st_download_button "Download Bulk Search Results CSV" all_rows
           "serper_bulk_search_results.csv" "text/csv"].
Proof.
  pose proof (bulk_page_is_bulk_upload except_widget_b None None (Some "key")
                (bulk_ui three_widgets true) (session_start []) three_widgets)
    as Hpage.
  assert (bulk_upload except_widget_b (Some "key") three_widgets []
          = (Ok (Report
                   (match (bulk_upload except_widget_b (Some "key")
                             three_widgets []).1 with
                    | Ok (Report out) => out
                    | _ => []
                    end)),
             (bulk_upload except_widget_b (Some "key") three_widgets []).2))
    as Hrun by (vm_compute; reflexivity).
  change (sent (session_start [])) with ([] : world) in Hpage.
  rewrite Hrun in Hpage.
  rewrite Hpage; [|repeat split; reflexivity|reflexivity].
  eexists. split_and!; [|reflexivity|].
  2: { cbn [snd shown session_start app]. reflexivity. }
  vm_compute. reflexivity.
Defined.

Lemma bulk_page_missing_column_stops_witness :
  main except_widget_b None None (Some "key") (bulk_ui wrong_header true)
    (session_start [])
  = (Stops,
     {| sent := [];
        shown := [] ++
          [st_title (Val (VStr "🔍 Product Info App"));
           st_header (Val (VStr "Serper Shopping Search"));
           st_error (Val (VStr "CSV must have a 'Product Title' column."))]
     |}).
Proof.
  apply (bulk_page_missing_column_stops except_widget_b None None
           (Some "key") (bulk_ui wrong_header true) (session_start [])
           wrong_header).
  - repeat split; reflexivity.
  - vm_compute. intros H. inversion H as [|? ? ? H1]; subst.
    inversion H1 as [|? ? ? H2]; subst. inversion H2.
Defined.

Lemma bulk_page_all_blank_shows_nothing_witness :
  main except_widget_b None None (Some "key") (bulk_ui blank_titles true)
    (session_start [])
  = (Goes (),
     {| sent := [];
        shown := [] ++
          [st_title (Val (VStr "🔍 Product Info App"));
           st_header (Val (VStr "Serper Shopping Search"))] |}).
Proof.
  apply (bulk_page_all_blank_shows_nothing except_widget_b None None
           (Some "key") (bulk_ui blank_titles true) (session_start [])
           blank_titles).
  - repeat split; reflexivity.
  - repeat constructor.
  - repeat (constructor; [apply strip_empty_iff; reflexivity|]).
    constructor.
Defined.
